(** * The demo mesh environment: resource declarations, engine contract,
      local scripts and the command-line driver

    Shallow embedding of [src/function.ts], [src/vm.ts] and [src/index.ts].
    The program is declarative: it registers resources with an
    orchestration engine.  What the program itself decides is
    - which resources are registered, with which properties and options;
    - which pending values (outputs of other resources) each property
      refers to, and which explicit [dependsOn] edges are given;
    - the text of the local and remote scripts;
    - the order of the calls made by the command-line driver.
    These are modelled from the source.  The engine that materialises
    the registrations is an external collaborator; its contract (a
    resource starts only when everything it depends on has been created)
    is modelled as a step function on engine states. *)

From stdpp Require Import gmap strings list.
From Stdlib Require Import ZArith Lia.

#[local] Open Scope string_scope.
#[local] Open Scope list_scope.
#[local] Set Warnings "-register-all,-clear-no-such-hyp".

(** ** Resource declaration layer *)

(** The resource classes instantiated by the program.  The classes
    [Gateway], [VirtualService] and [WorkloadGroup] come from the module
    [./istio], which is not among the sources: they are custom resources
    of the cluster control plane, registered like every other resource. *)
Inductive rclass :=
  | GcpProject | GcpService | GcpNetwork | GcpSubnetwork | GcpCluster
  | GcpFirewall | GcpInstance
  | K8sProvider | K8sNamespace | K8sServiceAccount | HelmChart
  | IstioGateway | IstioVirtualService | IstioWorkloadGroup
  | LocalCommand | RemoteCommand | RemoteCopyFile
  | TlsPrivateKey
  | VmServiceComponent.

#[global] Instance rclass_eq_dec : EqDecision rclass.
Proof. solve_decision. Defined.

(** A resource is identified by its class and its logical name: several
    resources of [VmService] share the logical name of the workload and
    differ by class only. *)
Definition urn : Type := rclass * string.

(** Property values.  [VOut rs what] is a pending value: it is known only
    once the resources [rs] have been created. *)
Inductive value :=
  | VStr (s : string)
  | VNum (n : Z)
  | VBool (b : bool)
  | VOut (rs : list urn) (what : string)
  | VList (l : list value)
  | VObj (fields : list (string * value)).

(** The resources a value is pending on. *)
Fixpoint value_deps (v : value) : list urn :=
  match v with
  | VStr _ | VNum _ | VBool _ => []
  | VOut rs _ => rs
  | VList l =>
      (fix go (l : list value) : list urn :=
         match l with
         | [] => []
         | x :: l' => value_deps x ++ go l'
         end) l
  | VObj fs =>
      (fix go (fs : list (string * value)) : list urn :=
         match fs with
         | [] => []
         | (_, x) :: fs' => value_deps x ++ go fs'
         end) fs
  end.

(** [o.k] for an object literal [o]. *)
Fixpoint field (k : string) (o : list (string * value)) : option value :=
  match o with
  | [] => None
  | (k', v) :: o' => if decide (k = k') then Some v else field k o'
  end.

(** [r.prop]: an output property of resource [r]. *)
Definition out (r : urn) (prop : string) : value := VOut [r] prop.

(** [pulumi.interpolate] and [pulumi.output(v).apply(f)]: the result is
    pending on everything its parts are pending on. *)
Definition interpolate (what : string) (parts : list value) : value :=
  VOut (value_deps (VList parts)) what.

Definition output_apply (what : string) (v : value) : value :=
  VOut (value_deps v) what.

(** Resource options.  A field that the options object does not carry is
    [None] (for [dependsOn]: the empty list). *)
Record ResourceOptions := {
  dependsOn : list urn;
  deleteBeforeReplace : option bool;
  provider : option urn;
  parent : option urn;
}.

Definition no_opts : ResourceOptions :=
  {| dependsOn := []; deleteBeforeReplace := None;
     provider := None; parent := None |}.

(** [{...o, dependsOn: d}] and [{...o, deleteBeforeReplace: b}]. *)
Definition with_dependsOn (o : ResourceOptions) (d : list urn) : ResourceOptions :=
  {| dependsOn := d; deleteBeforeReplace := deleteBeforeReplace o;
     provider := provider o; parent := parent o |}.

Definition with_deleteBeforeReplace (o : ResourceOptions) (b : bool) : ResourceOptions :=
  {| dependsOn := dependsOn o; deleteBeforeReplace := Some b;
     provider := provider o; parent := parent o |}.

(** One registration: [new C(name, props, opts)]. *)
Record Resource := {
  r_urn : urn;
  r_props : list (string * value);
  r_opts : ResourceOptions;
}.

Definition option_list {A} (o : option A) : list A :=
  match o with Some a => [a] | None => [] end.

(** Everything a registration waits for: the explicit [dependsOn] edges,
    the resources its properties are pending on, its provider and its
    parent. *)
Definition deps (r : Resource) : list urn :=
  dependsOn (r_opts r) ++ value_deps (VObj (r_props r))
    ++ option_list (provider (r_opts r)) ++ option_list (parent (r_opts r)).

(** The flag is carried when the options object has it set to [true]. *)
Definition carries_flag (r : Resource) : bool :=
  match deleteBeforeReplace (r_opts r) with
  | Some true => true
  | _ => false
  end.

(** ** [src/vm.ts]: the external workload *)

Record VmServiceArgs := {
  network_name : value;
  network_id : value;
  subnetId : value;
  project : value;
  zone : value;
  kubeconfigFile : value;
  istioVersion : value;
  cluster_name : value;
  cluster_network : value;
  vmNetwork : value;
  namespace : value;
}.

(** The options of the component: resource options plus [clusterOpts]. *)
Record VmServiceOpts := {
  vs_opts : ResourceOptions;
  clusterOpts : ResourceOptions;
}.

Section VmService.
(** [__dirname], the logical name, the arguments and the options. *)
Variable dirname : string.
Variable name : string.
Variable args : VmServiceArgs.
Variable opts : VmServiceOpts.

Definition WORK_DIR : string := dirname +:+ "/workloads/" +:+ name.

Definition envs : list (string * value) :=
  [ ("KUBECONFIG", kubeconfigFile args);
    ("VM_APP", VStr name);
    ("VM_NAMESPACE", namespace args);
    ("WORK_DIR", VStr WORK_DIR);
    ("SERVICE_ACCOUNT", VStr name);
    ("CLUSTER_NETWORK", cluster_network args);
    ("VM_NETWORK", vmNetwork args);
    ("CLUSTER", cluster_name args) ].

(** [envs.K]. *)
Definition env (k : string) : value := default (VStr "") (field k envs).

(** [super("gcp:istio:vmservice", name)]: the options are not passed on. *)
Definition component : Resource :=
  {| r_urn := (VmServiceComponent, name); r_props := []; r_opts := no_opts |}.

Definition sa : Resource :=
  {| r_urn := (K8sServiceAccount, name);
     r_props := [("metadata", VObj [("name", VStr name); ("namespace", namespace args)])];
     r_opts := with_deleteBeforeReplace (clusterOpts opts) true |}.

Definition workloadGroup : Resource :=
  {| r_urn := (IstioWorkloadGroup, name);
     r_props :=
       [("metadata", VObj [("name", env "VM_APP"); ("namespace", env "VM_NAMESPACE")]);
        ("spec", VObj
           [("metadata", VObj [("labels", VObj [("app", env "VM_APP")])]);
            ("template", VObj [("serviceAccount", env "SERVICE_ACCOUNT");
                               ("network", env "VM_NETWORK")])])];
     r_opts := clusterOpts opts |}.

(** The scripts are plain strings: they add no dependency.  They are
    named here; the text of the two local [create] scripts is rendered
    by [workDir_create] and [keyOnDisk_create] below. *)
Definition workDir : Resource :=
  {| r_urn := (LocalCommand, name);
     r_props := [("environment", VObj envs);
                 ("delete", VStr "workDir.delete");
                 ("create", VStr "workDir.create")];
     r_opts := with_deleteBeforeReplace (with_dependsOn no_opts [r_urn sa]) true |}.

Definition sshKey : Resource :=
  {| r_urn := (TlsPrivateKey, name);
     r_props := [("algorithm", VStr "ED25519")];
     r_opts := no_opts |}.

Definition privateKey : value := out (r_urn sshKey) "privateKeyOpenssh".

Definition vm : Resource :=
  {| r_urn := (GcpInstance, name);
     r_props :=
       [("project", project args);
        ("zone", zone args);
        ("machineType", VStr "f1-micro");
        ("bootDisk", VObj [("initializeParams",
                            VObj [("image", VStr "ubuntu-2204-jammy-v20230302")])]);
        ("networkInterfaces",
         VList [VObj [("network", network_id args);
                      ("subnetwork", subnetId args);
                      ("accessConfigs", VList [VObj []])]]);
        ("serviceAccount",
         VObj [("scopes", VList [VStr "https://www.googleapis.com/auth/cloud-platform"])]);
        ("allowStoppingForUpdate", VBool true);
        ("metadata",
         VObj [("ssh-keys",
                interpolate "istio:${publicKeyOpenssh} istio"
                  [out (r_urn sshKey) "publicKeyOpenssh"])])];
     r_opts := vs_opts opts |}.

(** [pulumi.output(vm.networkInterfaces[0]).apply(...)]. *)
Definition hostname_output : value :=
  output_apply "hostname" (out (r_urn vm) "networkInterfaces[0]").

Definition keyOnDisk : Resource :=
  {| r_urn := (LocalCommand, name +:+ "-key");
     r_props := [("environment", VObj [("SSHKEY", privateKey);
                                       ("HOSTNAME", hostname_output)]);
                 ("create", VStr "keyOnDisk.create");
                 ("delete", VStr "keyOnDisk.delete")];
     r_opts := with_deleteBeforeReplace no_opts true |}.

Definition connection : value :=
  VObj [("host", hostname_output);
        ("user", VStr "istio");
        ("privateKey", out (r_urn sshKey) "privateKeyOpenssh")].

Definition files : list string :=
  ["cluster.env"; "istio-token"; "mesh.yaml"; "root-cert.pem"; "hosts"].

Definition copyFile (f : string) : Resource :=
  {| r_urn := (RemoteCopyFile, name +:+ "-" +:+ f);
     r_props := [("connection", connection);
                 ("localPath", VStr (WORK_DIR +:+ "/" +:+ f));
                 ("remotePath", VStr ("/home/istio/" +:+ f))];
     r_opts := with_deleteBeforeReplace
                 (with_dependsOn no_opts [r_urn vm; r_urn workDir]) true |}.

Definition remoteFiles : list Resource := map copyFile files.

Definition dockerSetup : Resource :=
  {| r_urn := (RemoteCommand, name +:+ "-docker-setup");
     r_props := [("connection", connection);
                 ("create", VStr "dockerSetup.create")];
     r_opts := no_opts |}.

Definition dockerRun : Resource :=
  {| r_urn := (RemoteCommand, name +:+ "-docker-run");
     r_props := [("connection", connection);
                 ("create", VStr "dockerRun.create");
                 ("delete", VStr "dockerRun.delete")];
     r_opts := with_deleteBeforeReplace
                 (with_dependsOn no_opts [r_urn dockerSetup]) true |}.

Definition configure : Resource :=
  {| r_urn := (RemoteCommand, name +:+ "-configure");
     r_props := [("connection", connection);
                 ("create", VStr "configure.create")];
     r_opts := with_dependsOn no_opts (map r_urn remoteFiles ++ [r_urn dockerRun]) |}.

(** The registrations of the constructor, in program order. *)
Definition VmService : list Resource :=
  [component; sa; workloadGroup; workDir; sshKey; vm; keyOnDisk]
    ++ remoteFiles ++ [dockerSetup; dockerRun; configure].
End VmService.

(** ** [src/function.ts]: the declaration program *)

(** [new Date().getMilliseconds()] at wall-clock time [now] (milliseconds
    since the epoch): the millisecond component, in [0, 999]. *)
Definition getMilliseconds (now : Z) : Z := (now mod 1000)%Z.

Section Program.
(** [__dirname] and the wall-clock time at program evaluation. *)
Variable dirname : string.
Variable now : Z.

Definition region : string := "us-central1".
Definition kubeconfigFile_path : string := dirname +:+ "/kubeconfig".
Definition istio_version : string := "1.17.2".
Definition istio_repo : string := "https://istio-release.storage.googleapis.com/charts".
Definition the_cluster_name : string := "controlplane".
Definition the_cluster_network : string := "kube-network".
Definition the_vmNetwork : string := "vm-network".

Definition project_res : Resource :=
  {| r_urn := (GcpProject, "project");
     r_props := [("orgId", VStr "775566979306");
                 ("projectId", VStr "kubecon-eu-2023-apiserver");
                 ("billingAccount", VStr "0183E5-447B34-776DEB");
                 ("labels", VObj [("tetrate_owner", VStr "liam");
                                  ("tetrate_team", VStr "devrel")])];
     r_opts := no_opts |}.

Definition projectId : value := out (r_urn project_res) "projectId".

Definition containerService : Resource :=
  {| r_urn := (GcpService, "gke");
     r_props := [("project", projectId); ("service", VStr "container.googleapis.com")];
     r_opts := no_opts |}.

Definition network : Resource :=
  {| r_urn := (GcpNetwork, "network");
     r_props := [("project", projectId); ("autoCreateSubnetworks", VBool false)];
     r_opts := no_opts |}.

Definition subnet : Resource :=
  {| r_urn := (GcpSubnetwork, "subnet");
     r_props := [("project", projectId); ("region", VStr region);
                 ("ipCidrRange", VStr "10.0.1.0/24");
                 ("network", out (r_urn network) "id")];
     r_opts := no_opts |}.

Definition gke : Resource :=
  {| r_urn := (GcpCluster, "cluster");
     r_props := [("location", VStr region); ("enableAutopilot", VBool true);
                 ("project", projectId); ("ipAllocationPolicy", VObj [])];
     r_opts := with_dependsOn no_opts [r_urn containerService] |}.

Definition context : value :=
  interpolate "${project}_${gke.name}" [projectId; out (r_urn gke) "name"].

Definition kubeconfig : value :=
  VObj
    [("apiVersion", VStr "v1");
     ("clusters",
      VList [VObj [("name", context);
                   ("cluster",
                    VObj [("certificate-authority-data",
                           out (r_urn gke) "masterAuth.clusterCaCertificate");
                          ("server", interpolate "https://${gke.endpoint}"
                                       [out (r_urn gke) "endpoint"])])]]);
     ("contexts",
      VList [VObj [("name", context);
                   ("context", VObj [("cluster", context); ("user", context)])]]);
     ("current-context", context);
     ("kind", VStr "Config");
     ("preferences", VObj []);
     ("users",
      VList [VObj [("name", context);
                   ("user",
                    VObj [("exec",
                           VObj [("apiVersion",
                                  VStr "client.authentication.k8s.io/v1beta1");
                                 ("command", VStr "gke-gcloud-auth-plugin");
                                 ("installHint", VStr "Install gke-gcloud-auth-plugin for use with kubectl by following https://cloud.google.com/blog/products/containers-kubernetes/kubectl-auth-changes-in-gke");
                                 ("provideClusterInfo", VBool true)])])]])].

Definition localKc : Resource :=
  {| r_urn := (LocalCommand, "kc");
     r_props :=
       [("triggers", VList [VObj [("always", VNum (getMilliseconds now))]]);
        ("create", interpolate "echo $KUBECONFIG > ${kubeconfigFile}"
                     [VStr kubeconfigFile_path]);
        ("environment",
         VObj [("KUBECONFIG", output_apply "JSON.stringify" kubeconfig)])];
     r_opts := with_deleteBeforeReplace no_opts true |}.

Definition k8sProvider : Resource :=
  {| r_urn := (K8sProvider, "k8s");
     r_props := [("kubeconfig", output_apply "JSON.stringify" kubeconfig)];
     r_opts := no_opts |}.

Definition the_clusterOpts : ResourceOptions :=
  {| dependsOn := [r_urn localKc]; deleteBeforeReplace := None;
     provider := Some (r_urn k8sProvider); parent := Some (r_urn gke) |}.

Definition istioNamespace : Resource :=
  {| r_urn := (K8sNamespace, "istio-system");
     r_props := [("metadata", VObj [("name", VStr "istio-system")])];
     r_opts := the_clusterOpts |}.

Definition chart (release chart_name : string) (values : list (string * value))
    (o : ResourceOptions) : Resource :=
  {| r_urn := (HelmChart, release);
     r_props := [("chart", VStr chart_name);
                 ("version", VStr istio_version);
                 ("namespace", out (r_urn istioNamespace) "metadata.name");
                 ("fetchOpts", VObj [("repo", VStr istio_repo)])] ++ values;
     r_opts := o |}.

Definition base : Resource := chart "istio-base" "base" [] the_clusterOpts.

Definition istiod : Resource :=
  chart "istio-istiod" "istiod"
    [("values",
      VObj [("global",
             VObj [("meshID", VStr "mesh");
                   ("multiCluster", VObj [("clusterName", VStr "controlplane")])])])]
    (with_dependsOn the_clusterOpts [r_urn base]).

Definition port (n : string) (p : Z) : value :=
  VObj [("name", VStr n); ("port", VNum p); ("targetPort", VNum p)].

Definition ewgw : Resource :=
  chart "istio-eastwestgateway" "gateway"
    [("values",
      VObj [("labels",
             VObj [("istio", VStr "eastwestgateway");
                   ("app", VStr "istio-eastwestgateway");
                   ("topology.istio.io/network", VStr the_cluster_network)]);
            ("service",
             VObj [("ports",
                    VList [port "status-port" 15021; port "tls" 15443;
                           port "tls-istiod" 15012; port "tls-webhook" 15017])])])]
    (with_dependsOn the_clusterOpts [r_urn base]).

Definition server (n : string) (num : Z) (protocol mode host : string) : value :=
  VObj [("port", VObj [("name", VStr n); ("number", VNum num);
                       ("protocol", VStr protocol)]);
        ("tls", VObj [("mode", VStr mode)]);
        ("hosts", VList [VStr host])].

Definition istiodgw : Resource :=
  {| r_urn := (IstioGateway, "istiod-gateway");
     r_props :=
       [("metadata", VObj [("namespace", VStr "istio-system")]);
        ("spec",
         VObj [("selector", VObj [("istio", VStr "eastwestgateway")]);
               ("servers",
                VList [server "tls-istiod" 15012 "tls" "PASSTHROUGH" "*";
                       server "tls-istiodwebhook" 15017 "tls" "PASSTHROUGH" "*"])])];
     r_opts := the_clusterOpts |}.

Definition tls_route (match_port dest_port : Z) : value :=
  VObj [("match", VList [VObj [("port", VNum match_port);
                               ("sniHosts", VList [VStr "*"])]]);
        ("route",
         VList [VObj [("destination",
                       VObj [("host", VStr "istiod.istio-system.svc.cluster.local");
                             ("port", VObj [("number", VNum dest_port)])])]])].

Definition istiod_vs : Resource :=
  {| r_urn := (IstioVirtualService, "istiod-vs");
     r_props :=
       [("metadata", VObj [("namespace", VStr "istio-system")]);
        ("spec",
         VObj [("hosts", VList [VStr "*"]);
               ("gateways",
                VList [output_apply "m?.name || ''" (out (r_urn istiodgw) "metadata")]);
               ("tls", VList [tls_route 15012 15012; tls_route 15017 443])])];
     r_opts := the_clusterOpts |}.

Definition cross_network_gateway : Resource :=
  {| r_urn := (IstioGateway, "cross-network-gateway");
     r_props :=
       [("metadata", VObj [("namespace", VStr "istio-system")]);
        ("spec",
         VObj [("selector", VObj [("istio", VStr "eastwestgateway")]);
               ("servers",
                VList [server "tls" 15443 "TLS" "AUTO_PASSTHROUGH" "*.local"])])];
     r_opts := the_clusterOpts |}.

Definition firewall : Resource :=
  {| r_urn := (GcpFirewall, "firewall");
     r_props :=
       [("project", projectId);
        ("network", out (r_urn network) "selfLink");
        ("allows", VList [VObj [("protocol", VStr "tcp");
                                ("ports", VList [VStr "22"; VStr "80"])]]);
        ("direction", VStr "INGRESS");
        ("sourceRanges", VList [VStr "0.0.0.0/0"]);
        ("targetTags", VList [])];
     r_opts := no_opts |}.

Definition onpremns : Resource :=
  {| r_urn := (K8sNamespace, "on-prem");
     r_props := [("metadata", VObj [("name", VStr "onprem")])];
     r_opts := the_clusterOpts |}.

(** The arguments and options of [new VmService('test', ...)].  The
    [dependsOn] option is [[...ewgw.ready, firewall]]: the resources of
    the gateway chart and the firewall. *)
Definition test_args : VmServiceArgs :=
  {| network_name := out (r_urn network) "name";
     network_id := out (r_urn network) "id";
     subnetId := out (r_urn subnet) "id";
     project := projectId;
     zone := VStr (region +:+ "-b");
     kubeconfigFile := VStr kubeconfigFile_path;
     istioVersion := VStr istio_version;
     cluster_name := VStr the_cluster_name;
     cluster_network := VStr the_cluster_network;
     vmNetwork := VStr the_vmNetwork;
     namespace := out (r_urn onpremns) "metadata.name" |}.

Definition test_opts : VmServiceOpts :=
  {| vs_opts := with_dependsOn no_opts [r_urn ewgw; r_urn firewall];
     clusterOpts := the_clusterOpts |}.

(** All registrations of one evaluation of the program, in program order. *)
Definition pulumiFunction : list Resource :=
  [project_res; containerService; network; subnet; gke; localKc; k8sProvider;
   istioNamespace; base; istiod; ewgw; istiodgw; istiod_vs;
   cross_network_gateway; firewall; onpremns]
    ++ VmService dirname "test" test_args test_opts.
End Program.

(** ** The engine contract

    The engine is an external collaborator.  Its contract: a registered
    resource is started at most once, and only when every resource it
    waits for has been created; a started resource ends once, created or
    failed.  A run of the engine is a list of events; [step] checks one
    event against the state reached so far. *)

Inductive event :=
  | Start (r : urn)
  | Done (r : urn)
  | Fail (r : urn).

#[global] Instance event_eq_dec : EqDecision event.
Proof. solve_decision. Defined.

Record engine := {
  started : list urn;
  created : list urn;
  failed : list urn;
}.

Definition init : engine := {| started := []; created := []; failed := [] |}.

Fixpoint find_resource (g : list Resource) (r : urn) : option Resource :=
  match g with
  | [] => None
  | d :: g' => if decide (r_urn d = r) then Some d else find_resource g' r
  end.

Definition running (s : engine) (r : urn) : bool :=
  bool_decide (r ∈ started s) && bool_decide (r ∉ created s)
    && bool_decide (r ∉ failed s).

Definition step (g : list Resource) (s : engine) (e : event) : option engine :=
  match e with
  | Start r =>
      match find_resource g r with
      | Some d =>
          if bool_decide (r ∉ started s)
             && forallb (λ x, bool_decide (x ∈ created s)) (deps d)
          then Some {| started := r :: started s; created := created s;
                       failed := failed s |}
          else None
      | None => None
      end
  | Done r =>
      if running s r
      then Some {| started := started s; created := r :: created s;
                   failed := failed s |}
      else None
  | Fail r =>
      if running s r
      then Some {| started := started s; created := created s;
                   failed := r :: failed s |}
      else None
  end.

Fixpoint exec (g : list Resource) (s : engine) (t : list event) : option engine :=
  match t with
  | [] => Some s
  | e :: t' =>
      match step g s e with
      | Some s' => exec g s' t'
      | None => None
      end
  end.

(** A run of the program [g]: a list of events the engine accepts from
    its initial state. *)
Definition run (g : list Resource) (t : list event) : Prop :=
  is_Some (exec g init t).

(** [e] happens before [e'] in [t]: every occurrence of [e'] is preceded
    by one of [e]. *)
Definition before (e e' : event) (t : list event) : Prop :=
  ∀ t1 t2, t = t1 ++ e' :: t2 → e ∈ t1.

(** The outcome of an apply: it fails as soon as one resource failed. *)
Inductive outcome := Succeeded | Failed (r : urn).

Fixpoint up_outcome (t : list event) : outcome :=
  match t with
  | [] => Succeeded
  | Fail r :: _ => Failed r
  | _ :: t' => up_outcome t'
  end.

(** A run is complete when every registration has been created. *)
Definition complete (g : list Resource) (t : list event) : bool :=
  forallb (λ d, bool_decide (Done (r_urn d) ∈ t)) g.

(** Teardown removes the resources in the reverse of the order in which
    they were registered. *)
Definition destroy_order (g : list Resource) : list urn := rev (map r_urn g).

(** Position of the first occurrence. *)
Fixpoint index_of (r : urn) (l : list urn) : option nat :=
  match l with
  | [] => None
  | x :: l' => if decide (x = r) then Some 0 else S <$> index_of r l'
  end.

(** In the order [l], every resource of [g] comes strictly before all the
    resources it waits for. *)
Definition dependents_first (g : list Resource) (l : list urn) : bool :=
  forallb (λ d,
    forallb (λ x,
      match index_of (r_urn d) l, index_of x l with
      | Some i, Some j => bool_decide (i < j)
      | _, _ => false
      end) (deps d)) g.

(** ** The provisioning workflow of one external workload *)

(** The registrations [l] are part of the program [g]. *)
Definition registered (g l : list Resource) : Prop :=
  Forall (λ d, find_resource g (r_urn d) = Some d) l.

(** Steps 6 to 9 of the workflow: the five copies of the bundle files,
    the installation of the runtime, the launch of the workload process
    and the configuration of the sidecar. *)
Definition remote_steps (dirname name : string) (args : VmServiceArgs)
    (opts : VmServiceOpts) : list Resource :=
  remoteFiles dirname name args opts
    ++ [dockerSetup name args opts; dockerRun name args opts;
        configure dirname name args opts].


(** Sequential execution of the resources [l]: each is started and
    created before the next one starts. *)
Definition sequential (l : list urn) : list event :=
  flat_map (λ r, [Start r; Done r]) l.

(** ** The address of the workload ([VmService.hostname]) *)

(** Evaluation of a JavaScript expression: a value, or a thrown
    [TypeError]. *)
Inductive js (A : Type) :=
  | Value (a : A)
  | TypeError (msg : string).
Arguments Value {A} a.
Arguments TypeError {A} msg.

Record AccessConfig := { natIp : string }.

(** [accessConfigs] is an array or [undefined]. *)
Record NetworkInterface := { accessConfigs : option (list AccessConfig) }.

(** [(netint) => netint.accessConfigs ? netint.accessConfigs[0].natIp : '']
    applied to the lifted [vm.networkInterfaces[0]], which is [undefined]
    when the array is empty.  Every array is truthy, the empty one too;
    reading a property of [undefined] throws. *)
Definition hostname_callback (netint : option NetworkInterface) : js string :=
  match netint with
  | None => TypeError "Cannot read properties of undefined (reading 'accessConfigs')"
  | Some n =>
      match accessConfigs n with
      | None => Value ""
      | Some cfgs =>
          match cfgs !! 0%nat with
          | Some c => Value (natIp c)
          | None => TypeError "Cannot read properties of undefined (reading 'natIp')"
          end
      end
  end.

Definition hostname (networkInterfaces : list NetworkInterface) : js string :=
  hostname_callback (networkInterfaces !! 0%nat).

(** ** The local scripts and the working directory *)

Record file := { content : string; mode : N }.

(** The local disk: the entries of each existing directory.  The shell
    also has a current directory and a file-creation mask. *)
Record shell := {
  fs : gmap string (gmap string file);
  cwd : string;
  umask : N;
}.

Definition set_fs (s : shell) (m : gmap string (gmap string file)) : shell :=
  {| fs := m; cwd := cwd s; umask := umask s |}.

(** A command maps the state of the shell to an exit status and a new
    state. *)
Definition sh : Type := shell → Z * shell.

(** [c1; c2] on two lines of a script without [set -e]: [c2] runs
    whatever the status of [c1], and the status is that of [c2]. *)
Definition seq_sh (c1 c2 : sh) : sh := λ s, c2 (snd (c1 s)).
Infix ">>>" := seq_sh (at level 65, right associativity).

(** [mkdir -p d]. *)
Definition mkdir_p (d : string) : sh := λ s,
  match fs s !! d with
  | Some _ => (0%Z, s)
  | None => (0%Z, set_fs s (<[d := ∅]> (fs s)))
  end.

(** [cd d]. *)
Definition cd (d : string) : sh := λ s,
  match fs s !! d with
  | Some _ => (0%Z, {| fs := fs s; cwd := d; umask := umask s |})
  | None => (1%Z, s)
  end.

(** The mode of a file created by a redirection: [0666] without the bits
    of the mask. *)
Definition creation_mode (mask : N) : N := N.ldiff 438 mask.
Arguments creation_mode : simpl never.

(** Writing [text] to the entry [n] of directory [d]: an existing file
    keeps its mode. *)
Definition write_file (d n text : string) (s : shell) : option shell :=
  match fs s !! d with
  | Some entries =>
      let m := match entries !! n with
               | Some f => mode f
               | None => creation_mode (umask s)
               end in
      Some (set_fs s (<[d := <[n := {| content := text; mode := m |}]> entries]> (fs s)))
  | None => None
  end.

(** [... > d/n] with the output [text]. *)
Definition redirect (d n text : string) : sh := λ s,
  match write_file d n text s with
  | Some s' => (0%Z, s')
  | None => (1%Z, s)
  end.

(** [chmod m d/n]. *)
Definition chmod (m : N) (d n : string) : sh := λ s,
  match fs s !! d with
  | Some entries =>
      match entries !! n with
      | Some f =>
          (0%Z, set_fs s (<[d := <[n := {| content := content f; mode := m |}]> entries]> (fs s)))
      | None => (1%Z, s)
      end
  | None => (1%Z, s)
  end.

Definition nl : string := String (Ascii.ascii_of_nat 10) EmptyString.
Definition dq : string := String (Ascii.ascii_of_nat 34) EmptyString.
Definition quoted (s : string) : string := dq +:+ s +:+ dq.

(** The resolved environment of a command: plain values as they are,
    pending values as the engine resolved them.  [ρ x] is [${x}] in a
    script (empty when [x] is not set). *)
Definition resolve_env (resolved : list urn → string → string)
    (e : list (string * value)) : string → string := λ x,
  match field x e with
  | Some (VStr v) => v
  | Some (VOut rs what) => resolved rs what
  | _ => ""
  end.

Section Scripts.
(** The external bundle tool ([istioctl x workload entry configure]):
    the content it gives to each bundle file, from the descriptor and
    the cluster identifier.  Its contract, from its documentation: it
    reads the descriptor named by [-f] and writes the bundle files into
    the directory named by [-o]. *)
Variable bundle : string → string → string → string.
(** How the engine resolved the pending values. *)
Variable resolved : list urn → string → string.
Variables dirname name : string.
Variable args : VmServiceArgs.
Variable opts : VmServiceOpts.

Definition istioctl_configure (f out clusterID : string) : sh := λ s,
  match fs s !! cwd s ≫= (.!! f), fs s !! out with
  | Some wg, Some _ =>
      (0%Z, foldl (λ s' n, default s' (write_file out n (bundle (content wg) clusterID n) s'))
              s files)
  | _, _ => (1%Z, s)
  end.

Definition workloadgroup_yaml (ρ : string → string) : string :=
  "apiVersion: networking.istio.io/v1alpha3" +:+ nl +:+
  "kind: WorkloadGroup" +:+ nl +:+
  "metadata:" +:+ nl +:+
  "  name: " +:+ quoted (ρ "VM_APP") +:+ nl +:+
  "  namespace: " +:+ quoted (ρ "VM_NAMESPACE") +:+ nl +:+
  "spec:" +:+ nl +:+
  "  metadata:" +:+ nl +:+
  "    labels:" +:+ nl +:+
  "      app: " +:+ quoted (ρ "VM_APP") +:+ nl +:+
  "  template:" +:+ nl +:+
  "    serviceAccount: " +:+ quoted (ρ "SERVICE_ACCOUNT") +:+ nl +:+
  "    network: " +:+ quoted (ρ "VM_NETWORK") +:+ nl.

(** The [create] script of [workDir]. *)
Definition workDir_create : sh :=
  let ρ := resolve_env resolved (envs dirname name args) in
  mkdir_p (ρ "WORK_DIR") >>>
  cd (ρ "WORK_DIR") >>>
  (λ s, redirect (cwd s) "workloadgroup.yaml" (workloadgroup_yaml ρ) s) >>>
  istioctl_configure "workloadgroup.yaml" (ρ "WORK_DIR") (ρ "CLUSTER").

(** The [create] script of [keyOnDisk]; the directory is spliced into
    the text of the script when the program is evaluated. *)
Definition keyOnDisk_create : sh :=
  let ρ := resolve_env resolved
             [("SSHKEY", privateKey name); ("HOSTNAME", hostname_output name args opts)] in
  redirect (WORK_DIR dirname name) "key" (ρ "SSHKEY" +:+ nl) >>>
  chmod 384 (WORK_DIR dirname name) "key" >>>
  redirect (WORK_DIR dirname name) "hostname" (ρ "HOSTNAME" +:+ nl).

(** The local commands of an apply, run in the order [l], each in a
    shell of its own that starts in the directory and with the mask of
    [s]; the apply is successful only if every command exits with
    status 0. *)
Fixpoint apply_local (l : list sh) (s : shell) : option shell :=
  match l with
  | [] => Some s
  | c :: l' =>
      let (status, s') := c s in
      if decide (status = 0%Z)
      then apply_local l' {| fs := fs s'; cwd := cwd s; umask := umask s |}
      else None
  end.

(** The names of the entries of the working directory. *)
Definition work_dir_entries (s : shell) : option (gset string) :=
  dom <$> fs s !! WORK_DIR dirname name.

Definition work_dir_file (n : string) (s : shell) : option file :=
  fs s !! WORK_DIR dirname name ≫= (.!! n).
End Scripts.

(** ** [src/index.ts]: the command-line driver *)

Definition error : Type := string.

Inductive result (A : Type) :=
  | Ok (a : A)
  | Err (e : error).
Arguments Ok {A} a.
Arguments Err {A} e.

(** The calls the driver makes, in the order it makes them. *)
Inductive call :=
  | CreateOrSelectStack (stackName projectName : string)
  | Cancel
  | Refresh
  | Up
  | Destroy
  | ConsoleLog (text : string).

(** [summary.resourceChanges] of an operation of the engine. *)
Definition resourceChanges : Type := option (list (string * nat)).

(** The automation interface of the engine: what each operation on the
    stack answers.  An operation that fails rejects with an error. *)
Record Automation := {
  createOrSelectStack : result ();
  cancel : result ();
  refresh : result ();
  up : result resourceChanges;
  destroy : result resourceChanges;
}.

(** Asynchronous code of the driver: a log of the calls made so far, and
    a value or the error the promise is rejected with. *)
Definition M (A : Type) : Type := list call → list call * result A.

Definition ret {A} (a : A) : M A := λ log, (log, Ok a).

Definition bind {A B} (m : M A) (k : A → M B) : M B := λ log,
  match m log with
  | (log', Ok a) => k a log'
  | (log', Err e) => (log', Err e)
  end.

Definition throw {A} (e : error) : M A := λ log, (log, Err e).

(** [try { m } catch (e) { h e }]. *)
Definition try_catch {A} (m : M A) (h : error → M A) : M A := λ log,
  match m log with
  | (log', Ok a) => (log', Ok a)
  | (log', Err e) => h e log'
  end.

(** [await] of an operation: the call is made and answers [r]. *)
Definition await {A} (c : call) (r : result A) : M A := λ log, (log ++ [c], r).

#[global] Instance M_ret : MRet M := @ret.
#[global] Instance M_bind : MBind M := λ A B k m, bind m k.

(** An option of the command: its flags and its description.  An option
    is boolean when its flags name no value placeholder. *)
Record CliOption := { flags : string; description : string }.

Definition takes_value (o : CliOption) : bool :=
  match String.index 0 "<" (flags o), String.index 0 "[" (flags o) with
  | None, None => false
  | _, _ => true
  end.

Section Driver.
(** [JSON.stringify(changes, null, 4)]. *)
Variable stringify : resourceChanges → string.
Variable w : Automation.

(** The action of the command, with the parsed [opts.destroy]
    ([None] when the flag was not given). *)
Definition action (opts_destroy : option bool) : M () :=
  await (CreateOrSelectStack "demo" "demo") (createOrSelectStack w) ;;
  await Cancel (cancel w) ;;
  if default false opts_destroy then
    try_catch
      (destroyRes ← await Destroy (destroy w) ;
       await (ConsoleLog ("destroy summary: " +:+ nl +:+ stringify destroyRes)) (Ok ()))
      (λ e, throw e)
  else
    await Refresh (refresh w) ;;
    upRes ← await Up (up w) ;
    await (ConsoleLog ("update summary: " +:+ nl +:+ stringify upRes)) (Ok ()).

(** How the process ends: the calls it made, its exit code and the error
    it reports.  The rejection of the action is not handled anywhere: the
    runtime reports the error and ends the process with code 1. *)
Record process_end := {
  calls : list call;
  exit_code : Z;
  reported : option error;
}.

Definition main (opts_destroy : option bool) : process_end :=
  match action opts_destroy [] with
  | (log, Ok _) => {| calls := log; exit_code := 0; reported := None |}
  | (log, Err e) => {| calls := log; exit_code := 1; reported := Some e |}
  end.
End Driver.

(** The command: name, description, options. *)
Record Command := {
  cmd_name : string;
  cmd_description : string;
  cmd_options : list CliOption;
}.

Definition cli : Command :=
  {| cmd_name := "demo";
     cmd_description := "Provision the demo infra";
     cmd_options := [ {| flags := "--destroy";
                         description := "Tear down all the provisioned infra" |} ] |}.

(** The engine behind the automation interface when the apply runs as
    [t]: [up] rejects when a resource failed. *)
Definition automation_of_run (t : list event) : Automation :=
  {| createOrSelectStack := Ok ();
     cancel := Ok ();
     refresh := Ok ();
     up := match up_outcome t with
           | Succeeded => Ok None
           | Failed r => Err ("update failed: " +:+ snd r)
           end;
     destroy := Ok None |}.

(** ** The demo program and some of its runs *)

Definition demo : list Resource := pulumiFunction "/demo" 0.

(** The resources of [src/function.ts] before the workload, in program
    order. *)
Definition cluster_part : list urn :=
  [(GcpProject, "project"); (GcpService, "gke"); (GcpNetwork, "network");
   (GcpSubnetwork, "subnet"); (GcpCluster, "cluster"); (LocalCommand, "kc");
   (K8sProvider, "k8s"); (K8sNamespace, "istio-system");
   (HelmChart, "istio-base"); (HelmChart, "istio-istiod");
   (HelmChart, "istio-eastwestgateway"); (IstioGateway, "istiod-gateway");
   (IstioVirtualService, "istiod-vs"); (IstioGateway, "cross-network-gateway");
   (GcpFirewall, "firewall"); (K8sNamespace, "on-prem")].

Definition copies : list urn :=
  [(RemoteCopyFile, "test-cluster.env"); (RemoteCopyFile, "test-istio-token");
   (RemoteCopyFile, "test-mesh.yaml"); (RemoteCopyFile, "test-root-cert.pem");
   (RemoteCopyFile, "test-hosts")].

(** Everything in program order. *)
Definition run_in_order : list event :=
  sequential cluster_part
    ++ sequential [(VmServiceComponent, "test"); (K8sServiceAccount, "test");
                   (IstioWorkloadGroup, "test"); (LocalCommand, "test");
                   (TlsPrivateKey, "test"); (GcpInstance, "test");
                   (LocalCommand, "test-key")]
    ++ sequential copies
    ++ sequential [(RemoteCommand, "test-docker-setup");
                   (RemoteCommand, "test-docker-run");
                   (RemoteCommand, "test-configure")].

(** The instance is created before the bundle is generated. *)
Definition run_vm_first : list event :=
  sequential cluster_part
    ++ sequential [(TlsPrivateKey, "test"); (GcpInstance, "test")]
    ++ sequential [(VmServiceComponent, "test"); (K8sServiceAccount, "test");
                   (IstioWorkloadGroup, "test"); (LocalCommand, "test");
                   (LocalCommand, "test-key")]
    ++ sequential copies
    ++ sequential [(RemoteCommand, "test-docker-setup");
                   (RemoteCommand, "test-docker-run");
                   (RemoteCommand, "test-configure")].

(** The bundle is generated before the workload group is created. *)
Definition run_bundle_first : list event :=
  sequential cluster_part
    ++ sequential [(VmServiceComponent, "test"); (K8sServiceAccount, "test");
                   (LocalCommand, "test")]
    ++ sequential [(IstioWorkloadGroup, "test");
                   (TlsPrivateKey, "test"); (GcpInstance, "test");
                   (LocalCommand, "test-key")]
    ++ sequential copies
    ++ sequential [(RemoteCommand, "test-docker-setup");
                   (RemoteCommand, "test-docker-run");
                   (RemoteCommand, "test-configure")].

(** The creation of the instance fails. *)
Definition run_vm_fails : list event :=
  sequential cluster_part
    ++ sequential [(VmServiceComponent, "test"); (K8sServiceAccount, "test");
                   (IstioWorkloadGroup, "test"); (LocalCommand, "test");
                   (TlsPrivateKey, "test")]
    ++ [Start (GcpInstance, "test"); Fail (GcpInstance, "test")].

(** The debug snapshot fails, everything else is created. *)
Definition run_key_fails : list event :=
  sequential cluster_part
    ++ sequential [(VmServiceComponent, "test"); (K8sServiceAccount, "test");
                   (IstioWorkloadGroup, "test"); (LocalCommand, "test");
                   (TlsPrivateKey, "test"); (GcpInstance, "test")]
    ++ [Start (LocalCommand, "test-key"); Fail (LocalCommand, "test-key")]
    ++ sequential copies
    ++ sequential [(RemoteCommand, "test-docker-setup");
                   (RemoteCommand, "test-docker-run");
                   (RemoteCommand, "test-configure")].

(** A fresh local disk: the directory of the program exists and holds
    nothing else; the mask is [022]. *)
Definition fresh_disk : shell :=
  {| fs := {[ "/demo" := ∅ ]}; cwd := "/demo"; umask := 18 |}.

(** Sample contents of the bundle files and sample resolutions. *)
Definition sample_bundle : string → string → string → string :=
  λ _ clusterID n, n +:+ " for " +:+ clusterID.

Definition sample_resolved : list urn → string → string :=
  λ _ what, if decide (what = "metadata.name") then "onprem" else what.

Definition sample_stringify : resourceChanges → string := λ _, "{}".

(** ** Invariants of the engine and proof automation *)

(** No resource is both created and failed. *)
Definition exclusive (s : engine) : Prop :=
  ∀ x, x ∈ created s → x ∉ failed s.

(** Only started resources end. *)
Definition ended_started (s : engine) : Prop :=
  ∀ y, y ∈ created s ∨ y ∈ failed s → y ∈ started s.

(** Two states that differ only in how [k] ended: created in the first,
    failed in the second. *)
Definition swapped (k : urn) (s s' : engine) : Prop :=
  started s = started s'
  ∧ k ∈ created s ∧ k ∈ failed s'
  ∧ ∀ x, x ≠ k → (x ∈ created s ↔ x ∈ created s') ∧ (x ∈ failed s ↔ x ∈ failed s').

(** Case analysis on membership in an explicit list. *)
Ltac list_cases H :=
  repeat (apply elem_of_cons in H as [-> | H]); [.. | by apply elem_of_nil in H].

(** Runs and memberships of explicit lists, by computation. *)
Ltac run_by_computation := vm_compute; by eexists.

Ltac refute_by_computation :=
  match goal with
  | |- ?P → False =>
      change (¬ P); apply (bool_decide_eq_false_1 P); vm_compute; reflexivity
  end.
(** ** The rest of the local scripts, and tools to inspect the program *)

(** [d] is the directory [w] or lies below it. *)
Definition under (w d : string) : Prop :=
  d = w ∨ String.prefix (w +:+ "/") d = true.

#[global] Instance under_dec w d : Decision (under w d).
Proof. unfold under. apply _. Defined.

(** [rm -rf w]: the directory and everything below it are removed; with
    [-f] a missing directory is no error. *)
Definition rm_rf (w : string) : sh := λ s,
  (0%Z, set_fs s (filter (λ p, ¬ under w p.1) (fs s))).

(** [rm -f d/n]: the entry is removed when it is there; with [-f] a
    missing entry or directory is no error. *)
Definition rm_f (d n : string) : sh := λ s,
  match fs s !! d with
  | Some entries => (0%Z, set_fs s (<[d := delete n entries]> (fs s)))
  | None => (0%Z, s)
  end.

Section DeleteScripts.
Variable resolved : list urn → string → string.
Variables dirname name : string.
Variable args : VmServiceArgs.

(** The [delete] script of [workDir]; it runs with the environment of
    the command. *)
Definition workDir_delete : sh :=
  let ρ := resolve_env resolved (envs dirname name args) in
  rm_rf (ρ "WORK_DIR").

(** The [delete] script of [keyOnDisk]. *)
Definition keyOnDisk_delete : sh :=
  rm_f (WORK_DIR dirname name) "key" >>> rm_f (WORK_DIR dirname name) "hostname".
End DeleteScripts.

(** Everything upstream of [r]: what it waits for, and what those wait
    for, down to depth [fuel]. *)
Fixpoint upstream (g : list Resource) (fuel : nat) (r : urn) : list urn :=
  match fuel with
  | O => []
  | S n =>
      match find_resource g r with
      | Some d => deps d ++ flat_map (upstream g n) (deps d)
      | None => []
      end
  end.

(** The registrations [g] come after the registrations [seen]: each has
    a name of its own and waits only for registrations made before it. *)
Fixpoint in_order (seen : list urn) (g : list Resource) : bool :=
  match g with
  | [] => true
  | d :: g' =>
      bool_decide (r_urn d ∉ seen)
        && forallb (λ x, bool_decide (x ∈ seen)) (deps d)
        && in_order (r_urn d :: seen) g'
  end.

(** Reading a declared property bag: [v.k], [v.k1.k2...], the elements
    of an array, a number. *)
Definition get (k : string) (v : value) : option value :=
  match v with
  | VObj fs => field k fs
  | _ => None
  end.

Definition path (ks : list string) (v : value) : option value :=
  foldl (λ o k, o ≫= get k) (Some v) ks.

Definition elems (o : option value) : list value :=
  match o with
  | Some (VList l) => l
  | _ => []
  end.

Definition num (v : value) : option Z :=
  match v with
  | VNum n => Some n
  | _ => None
  end.

(** The port numbers of the servers of a [Gateway], the ports matched by
    the TLS routes of a [VirtualService], the ports of the service of a
    gateway chart and the ports they target. *)
Definition gateway_ports (r : Resource) : list Z :=
  omap (λ srv, path ["port"; "number"] srv ≫= num)
    (elems (path ["spec"; "servers"] (VObj (r_props r)))).

Definition route_match_ports (r : Resource) : list Z :=
  flat_map (λ route, omap (λ m, get "port" m ≫= num) (elems (get "match" route)))
    (elems (path ["spec"; "tls"] (VObj (r_props r)))).

Definition service_ports (r : Resource) : list Z :=
  omap (λ p, get "port" p ≫= num)
    (elems (path ["values"; "service"; "ports"] (VObj (r_props r)))).

Definition service_target_ports (r : Resource) : list Z :=
  omap (λ p, get "targetPort" p ≫= num)
    (elems (path ["values"; "service"; "ports"] (VObj (r_props r)))).

(** The selector of a [Gateway] and the labels of a gateway chart. *)
Definition selector (r : Resource) : list (string * value) :=
  match path ["spec"; "selector"] (VObj (r_props r)) with
  | Some (VObj fs) => fs
  | _ => []
  end.

Definition labels (r : Resource) : list (string * value) :=
  match path ["values"; "labels"] (VObj (r_props r)) with
  | Some (VObj fs) => fs
  | _ => []
  end.

(** The debug snapshot is started, and fails, before the bundle is
    generated. *)
Definition run_key_before_bundle : list event :=
  sequential cluster_part
    ++ sequential [(TlsPrivateKey, "test"); (GcpInstance, "test")]
    ++ [Start (LocalCommand, "test-key"); Fail (LocalCommand, "test-key")]
    ++ sequential [(VmServiceComponent, "test"); (K8sServiceAccount, "test");
                   (IstioWorkloadGroup, "test"); (LocalCommand, "test")].

(** The sidecar of the workload is configured before the control plane
    is installed, before it is exposed and before the workload group
    exists. *)
Definition run_sidecar_first : list event :=
  sequential [(GcpProject, "project"); (GcpService, "gke"); (GcpNetwork, "network");
              (GcpSubnetwork, "subnet"); (GcpCluster, "cluster"); (LocalCommand, "kc");
              (K8sProvider, "k8s"); (K8sNamespace, "istio-system");
              (HelmChart, "istio-base"); (HelmChart, "istio-eastwestgateway");
              (GcpFirewall, "firewall"); (K8sNamespace, "on-prem");
              (K8sServiceAccount, "test"); (LocalCommand, "test");
              (TlsPrivateKey, "test"); (GcpInstance, "test")]
    ++ sequential copies
    ++ sequential [(RemoteCommand, "test-docker-setup");
                   (RemoteCommand, "test-docker-run");
                   (RemoteCommand, "test-configure")]
    ++ sequential [(HelmChart, "istio-istiod"); (IstioGateway, "istiod-gateway");
                   (IstioVirtualService, "istiod-vs");
                   (IstioGateway, "cross-network-gateway");
                   (VmServiceComponent, "test"); (IstioWorkloadGroup, "test");
                   (LocalCommand, "test-key")].

(** A disk on which the working directory of [test] exists and holds an
    operator's file and an old, readable [key]. *)
Definition used_disk : shell :=
  {| fs := {[ "/demo/workloads/test" :=
                {[ "notes" := {| content := "kept"; mode := 420 |};
                   "key" := {| content := "old"; mode := 420 |} ]} ]};
     cwd := "/demo"; umask := 18 |}.

(** The working directory of [test] with the operator's file only. *)
Definition clean_disk : shell :=
  {| fs := {[ "/demo/workloads/test" :=
                {[ "notes" := {| content := "kept"; mode := 420 |} ]} ]};
     cwd := "/demo"; umask := 18 |}.

(** ** Properties of runs *)

Section Runs.
Variable g : list Resource.

Lemma exec_app s t1 t2 :
  exec g s (t1 ++ t2) =
    match exec g s t1 with Some s' => exec g s' t2 | None => None end.
Proof.
  revert s. induction t1 as [|e t1 IH]; intros s; simpl; [done|].
  destruct (step g s e); [apply IH | done].
Qed.

Lemma running_spec s r :
  running s r = true ↔ r ∈ started s ∧ (r ∉ created s) ∧ (r ∉ failed s).
Proof.
  unfold running. rewrite !andb_true_iff, !bool_decide_eq_true. tauto.
Qed.

(** What one event adds to the lists of the engine. *)
Lemma step_created s e s' x :
  step g s e = Some s' → x ∈ created s' ↔ x ∈ created s ∨ e = Done x.
Proof.
  destruct e as [r|r|r]; simpl.
  - destruct (find_resource g r); [|done].
    case_match; [|done]. intros [= <-]; simpl. naive_solver.
  - case_match; [|done]. intros [= <-]; simpl.
    rewrite elem_of_cons. naive_solver.
  - case_match; [|done]. intros [= <-]; simpl. naive_solver.
Qed.

Lemma step_failed s e s' x :
  step g s e = Some s' → x ∈ failed s' ↔ x ∈ failed s ∨ e = Fail x.
Proof.
  destruct e as [r|r|r]; simpl.
  - destruct (find_resource g r); [|done].
    case_match; [|done]. intros [= <-]; simpl. naive_solver.
  - case_match; [|done]. intros [= <-]; simpl. naive_solver.
  - case_match; [|done]. intros [= <-]; simpl.
    rewrite elem_of_cons. naive_solver.
Qed.

Lemma exec_created s t s' x :
  exec g s t = Some s' → x ∈ created s' ↔ x ∈ created s ∨ Done x ∈ t.
Proof.
  revert s. induction t as [|e t IH]; intros s; simpl.
  - intros [= <-]. rewrite elem_of_nil. tauto.
  - destruct (step g s e) as [s1|] eqn:Hs; [|done]. intros H.
    rewrite (IH _ H), (step_created _ _ _ x Hs), elem_of_cons. naive_solver.
Qed.

Lemma exec_failed s t s' x :
  exec g s t = Some s' → x ∈ failed s' ↔ x ∈ failed s ∨ Fail x ∈ t.
Proof.
  revert s. induction t as [|e t IH]; intros s; simpl.
  - intros [= <-]. rewrite elem_of_nil. tauto.
  - destruct (step g s e) as [s1|] eqn:Hs; [|done]. intros H.
    rewrite (IH _ H), (step_failed _ _ _ x Hs), elem_of_cons. naive_solver.
Qed.


Lemma step_exclusive s e s' :
  step g s e = Some s' → exclusive s → exclusive s'.
Proof.
  intros Hs Hex x. rewrite (step_created _ _ _ x Hs), (step_failed _ _ _ x Hs).
  intros [Hc | ->] [Hf | He]; try done.
  - by apply (Hex x).
  - subst e. simpl in Hs. case_match eqn:Hr; [|done].
    apply running_spec in Hr. tauto.
  - simpl in Hs. case_match eqn:Hr; [|done].
    apply running_spec in Hr. tauto.
Qed.

Lemma exec_exclusive s t s' :
  exec g s t = Some s' → exclusive s → exclusive s'.
Proof.
  revert s. induction t as [|e t IH]; intros s; simpl.
  - by intros [= <-].
  - destruct (step g s e) as [s1|] eqn:Hs; [|done].
    intros H Hex. eapply IH; [done|]. by eapply step_exclusive.
Qed.

Lemma init_exclusive : exclusive init.
Proof. intros x Hx. simpl in Hx. by apply elem_of_nil in Hx. Qed.

Lemma run_not_both t x : run g t → Done x ∈ t → Fail x ∈ t → False.
Proof.
  intros [s Hs] Hd Hf.
  apply (exec_exclusive _ _ _ Hs init_exclusive x).
  - rewrite (exec_created _ _ _ x Hs). by right.
  - rewrite (exec_failed _ _ _ x Hs). by right.
Qed.

(** The contract: a resource starts only after everything it waits for
    has been created. *)
Lemma run_start_after_deps t r d x :
  run g t → find_resource g r = Some d → x ∈ deps d →
  before (Done x) (Start r) t.
Proof.
  intros [s Hs] Hd Hx t1 t2 ->.
  rewrite exec_app in Hs. destruct (exec g init t1) as [s1|] eqn:H1; [|done].
  simpl in Hs. rewrite Hd in Hs.
  destruct (bool_decide (r ∉ started s1)
            && forallb (λ y, bool_decide (y ∈ created s1)) (deps d)) eqn:Hg;
    [|done].
  apply andb_true_iff in Hg as [_ Hall].
  rewrite forallb_forall in Hall.
  assert (x ∈ created s1) as Hc.
  { eapply bool_decide_eq_true_1, Hall. by apply list_elem_of_In. }
  rewrite (exec_created _ _ _ x H1) in Hc.
  destruct Hc as [Hc|Hc]; [|done]. simpl in Hc. by apply elem_of_nil in Hc.
Qed.

Lemma before_elem e e' t : before e e' t → e' ∈ t → e ∈ t.
Proof.
  intros Hb He. apply list_elem_of_split in He as (t1 & t2 & ->).
  apply elem_of_app. left. by eapply Hb.
Qed.

(** A resource whose upstream dependency failed is never started. *)
Lemma failed_blocks_start t r d x :
  run g t → find_resource g r = Some d → x ∈ deps d →
  Fail x ∈ t → Start r ∉ t.
Proof.
  intros Hrun Hd Hx Hf Hs.
  apply (run_not_both t x Hrun); [|done].
  eapply before_elem; [|done]. by eapply run_start_after_deps.
Qed.

Lemma step_ended_started s e s' :
  step g s e = Some s' → ended_started s → ended_started s'.
Proof.
  intros Hs Hinv y. destruct e as [r|r|r]; simpl in Hs.
  - destruct (find_resource g r); [|done]. case_match; [|done].
    injection Hs as <-; simpl. intros Hy. apply elem_of_cons. right. by apply Hinv.
  - case_match eqn:Hr; [|done]. injection Hs as <-; simpl.
    apply running_spec in Hr. rewrite elem_of_cons.
    intros [[-> | Hy] | Hy]; [tauto | apply Hinv; tauto | apply Hinv; tauto].
  - case_match eqn:Hr; [|done]. injection Hs as <-; simpl.
    apply running_spec in Hr. rewrite elem_of_cons.
    intros [Hy | [-> | Hy]]; [apply Hinv; tauto | tauto | apply Hinv; tauto].
Qed.

Lemma exec_ended_started s t s' :
  exec g s t = Some s' → ended_started s → ended_started s'.
Proof.
  revert s. induction t as [|e t IH]; intros s; simpl.
  - by intros [= <-].
  - destruct (step g s e) as [s1|] eqn:Hs; [|done].
    intros H Hinv. eapply IH; [done|]. by eapply step_ended_started.
Qed.

Lemma step_started s e s' x :
  step g s e = Some s' → x ∈ started s' ↔ x ∈ started s ∨ e = Start x.
Proof.
  destruct e as [r|r|r]; simpl.
  - destruct (find_resource g r); [|done].
    case_match; [|done]. intros [= <-]; simpl.
    rewrite elem_of_cons. split; [intros [-> | Hx]; auto | intros [Hx | [= ->]]; auto].
  - case_match; [|done]. intros [= <-]; simpl.
    split; [auto | intros [Hx | [=]]; auto].
  - case_match; [|done]. intros [= <-]; simpl.
    split; [auto | intros [Hx | [=]]; auto].
Qed.

Lemma exec_started s t s' x :
  exec g s t = Some s' → x ∈ started s' ↔ x ∈ started s ∨ Start x ∈ t.
Proof.
  revert s. induction t as [|e t IH]; intros s; simpl.
  - intros [= <-]. rewrite elem_of_nil. tauto.
  - destruct (step g s e) as [s1|] eqn:Hs; [|done]. intros H.
    rewrite (IH _ H), (step_started _ _ _ x Hs), elem_of_cons.
    split; [intros [[H1 | ->] | H1]; auto | intros [H1 | [-> | H1]]; auto].
Qed.

Lemma run_end_started t x :
  run g t → Done x ∈ t ∨ Fail x ∈ t → Start x ∈ t.
Proof.
  intros [s Hs] Hx.
  assert (x ∈ started s) as Hst.
  { apply (exec_ended_started _ _ _ Hs).
    - intros y [Hy | Hy]; simpl in Hy; by apply elem_of_nil in Hy.
    - rewrite (exec_created _ _ _ x Hs), (exec_failed _ _ _ x Hs). tauto. }
  rewrite (exec_started _ _ _ x Hs) in Hst.
  destruct Hst as [Hst | Hst]; [|done]. simpl in Hst. by apply elem_of_nil in Hst.
Qed.

Lemma find_resource_elem r d : find_resource g r = Some d → d ∈ g ∧ r_urn d = r.
Proof.
  induction g as [|d' g' IH]; simpl; [done|].
  case_decide as Hd.
  - intros [= ->]. split; [apply elem_of_cons; by left | done].
  - intros H. destruct (IH H) as [H1 H2]. split; [apply elem_of_cons; by right | done].
Qed.

(** The failure of a resource nothing waits for: a run in which it was
    created remains a run when it fails instead. *)
Section Swap.
Variable k : urn.
Hypothesis Hleaf : ∀ d, d ∈ g → k ∉ deps d.


Lemma swapped_running s s' r :
  swapped k s s' → running s r = true → running s' r = true ∧ r ≠ k.
Proof.
  intros (Hst & Hk & Hk' & Hrest). rewrite !running_spec, <- Hst.
  intros (H1 & H2 & H3). assert (r ≠ k) as Hne by (intros ->; done).
  destruct (Hrest r Hne) as [Hc Hf]. tauto.
Qed.

Lemma step_swapped s s' e s1 :
  swapped k s s' → step g s e = Some s1 →
  ∃ s1', step g s' e = Some s1' ∧ swapped k s1 s1'.
Proof.
  intros Hsw Hs. pose proof Hsw as (Hst & Hk & Hk' & Hrest).
  destruct e as [r|r|r]; simpl in *.
  - destruct (find_resource g r) as [d|] eqn:Hd; [|done].
    destruct (bool_decide (r ∉ started s)
              && forallb (λ x, bool_decide (x ∈ created s)) (deps d)) eqn:Hc; [|done].
    injection Hs as <-. apply andb_true_iff in Hc as [Hns Hall].
    assert (bool_decide (r ∉ started s')
            && forallb (λ x, bool_decide (x ∈ created s')) (deps d) = true) as ->.
    { apply andb_true_iff. split; [by rewrite <- Hst|].
      rewrite forallb_forall in Hall |- *. intros x Hx.
      apply bool_decide_eq_true. apply Hrest.
      - intros ->. apply find_resource_elem in Hd as [Hd _].
        apply (Hleaf d Hd). by apply list_elem_of_In.
      - by eapply bool_decide_eq_true_1, Hall. }
    eexists; split; [done|]. repeat split; simpl; try done; try (by f_equal);
      by apply Hrest.
  - destruct (running s r) eqn:Hr; [|done]. injection Hs as <-.
    destruct (swapped_running _ _ _ Hsw Hr) as [-> Hne].
    eexists; split; [done|]. repeat split; simpl; try done.
    + apply elem_of_cons. by right.
    + rewrite !elem_of_cons. intros [-> | Hx]; [by left | right; by apply Hrest].
    + rewrite !elem_of_cons. intros [-> | Hx]; [by left | right; by apply Hrest].
    + by apply Hrest.
    + by apply Hrest.
  - destruct (running s r) eqn:Hr; [|done]. injection Hs as <-.
    destruct (swapped_running _ _ _ Hsw Hr) as [-> Hne].
    eexists; split; [done|]. repeat split; simpl; try done.
    + apply elem_of_cons. by right.
    + by apply Hrest.
    + by apply Hrest.
    + rewrite !elem_of_cons. intros [-> | Hx]; [by left | right; by apply Hrest].
    + rewrite !elem_of_cons. intros [-> | Hx]; [by left | right; by apply Hrest].
Qed.

Lemma exec_swapped s s' t s1 :
  swapped k s s' → exec g s t = Some s1 → is_Some (exec g s' t).
Proof.
  revert s s'. induction t as [|e t IH]; intros s s' Hsw; simpl; [by eauto|].
  destruct (step g s e) as [s2|] eqn:Hs; [|done]. intros H.
  destruct (step_swapped _ _ _ _ Hsw Hs) as (s2' & -> & Hsw'). by eapply IH.
Qed.

Lemma run_swap_failure t1 t2 :
  run g (t1 ++ Done k :: t2) → run g (t1 ++ Fail k :: t2).
Proof.
  unfold run. rewrite !exec_app. intros [s Hs].
  destruct (exec g init t1) as [s1|]; [|done]. simpl in *.
  destruct (running s1 k) eqn:Hr; [|done].
  eapply exec_swapped; [|done]. apply running_spec in Hr.
  repeat split; simpl; try done; try (apply elem_of_cons; by left);
    rewrite !elem_of_cons; naive_solver.
Qed.
End Swap.

Lemma up_outcome_failed t x : Fail x ∈ t → up_outcome t ≠ Succeeded.
Proof.
  induction t as [|e t IH]; [by intros ?%elem_of_nil|].
  rewrite elem_of_cons. destruct e; simpl; try done; intros [[=] | H]; auto.
Qed.
End Runs.


Section Workflow.
Variable g : list Resource.
Variables dirname name : string.
Variable args : VmServiceArgs.
Variable opts : VmServiceOpts.
Hypothesis Hreg : registered g (VmService dirname name args opts).

Lemma registered_find d :
  d ∈ VmService dirname name args opts → find_resource g (r_urn d) = Some d.
Proof. intros Hd. unfold registered in Hreg. rewrite Forall_forall in Hreg. auto. Qed.

Lemma remote_steps_registered d :
  d ∈ remote_steps dirname name args opts → d ∈ VmService dirname name args opts.
Proof.
  unfold remote_steps, VmService. rewrite !elem_of_app. intros [H|H]; [tauto|].
  right. right. done.
Qed.

(** Every remote step uses the connection, whose host is the address of
    the instance: it waits for the instance. *)
Lemma remote_steps_wait_vm d :
  d ∈ remote_steps dirname name args opts → r_urn (vm name args opts) ∈ deps d.
Proof.
  unfold remote_steps, remoteFiles, files. simpl. intros H.
  list_cases H; unfold deps; simpl; set_solver.
Qed.

Lemma configure_waits x :
  x ∈ map r_urn (remoteFiles dirname name args opts)
        ++ [r_urn (dockerRun name args opts)] →
  x ∈ deps (configure dirname name args opts).
Proof. unfold deps. simpl. set_solver. Qed.
Lemma in_VmService d :
  d ∈ [sa name args opts; workloadGroup dirname name args opts;
       workDir dirname name args opts; sshKey name; vm name args opts;
       keyOnDisk name args opts]
      ++ remote_steps dirname name args opts →
  d ∈ VmService dirname name args opts.
Proof.
  unfold remote_steps, VmService. rewrite !elem_of_app, !elem_of_cons. tauto.
Qed.

(** C1: if the creation of the compute instance fails, then in every run
    none of the five copies of the bundle files and none of the later
    remote steps (installation of the runtime, launch of the workload
    process, configuration of the sidecar) ever starts or ends: nothing
    is done on the remote workload. *)
Theorem vm_failure_blocks_remote_steps t d :
  run g t →
  Fail (r_urn (vm name args opts)) ∈ t →
  d ∈ remote_steps dirname name args opts →
  (Start (r_urn d) ∉ t) ∧ (Done (r_urn d) ∉ t) ∧ (Fail (r_urn d) ∉ t).
Proof.
  intros Hrun Hfail Hd.
  assert (Start (r_urn d) ∉ t) as Hns.
  { eapply failed_blocks_start; [done | | by apply remote_steps_wait_vm | done].
    by apply registered_find, remote_steps_registered. }
  split; [done|].
  split; intros H; apply Hns; eapply run_end_started; eauto.
Qed.

(** C2: in every run, the configuration of the sidecar starts only after
    each of the five copies of the bundle files has been completed and
    after the workload process has been launched. *)
Theorem configure_after_copies_and_launch t x :
  run g t →
  x ∈ map r_urn (remoteFiles dirname name args opts)
        ++ [r_urn (dockerRun name args opts)] →
  before (Done x) (Start (r_urn (configure dirname name args opts))) t.
Proof.
  intros Hrun Hx. eapply run_start_after_deps; [done | | by apply configure_waits].
  apply registered_find, in_VmService.
  unfold remote_steps. rewrite !elem_of_app, !elem_of_cons. tauto.
Qed.

(** C3, as the code has it: in every run the key pair is generated before
    the creation of the compute instance starts, and the key pair, the
    bundle and the compute instance are all complete before any copy of
    a bundle file starts.  The creation of the instance does not wait
    for the bundle. *)
Theorem key_before_vm_and_both_before_copies t f :
  run g t →
  f ∈ remoteFiles dirname name args opts →
  before (Done (r_urn (sshKey name))) (Start (r_urn (vm name args opts))) t
  ∧ before (Done (r_urn (sshKey name))) (Start (r_urn f)) t
  ∧ before (Done (r_urn (workDir dirname name args opts))) (Start (r_urn f)) t
  ∧ before (Done (r_urn (vm name args opts))) (Start (r_urn f)) t.
Proof.
  intros Hrun Hf. split.
  { eapply run_start_after_deps; [done | |].
    - apply registered_find, in_VmService. set_solver.
    - unfold deps. simpl. set_solver. }
  assert (find_resource g (r_urn f) = Some f) as Hfind.
  { apply registered_find, in_VmService. unfold remote_steps. set_solver. }
  unfold remoteFiles, files in Hf. simpl in Hf.
  repeat split; (eapply run_start_after_deps; [done | done |]);
    list_cases Hf; unfold deps; simpl; set_solver.
Qed.

(** C5, as the code has it: the bundle-generation command is declared
    after the service account and the workload-group descriptor, and in
    every run it starts only after the service account has been created.
    It does not wait for the workload-group descriptor. *)
Theorem bundle_after_service_account t :
  run g t →
  (∃ pre post, VmService dirname name args opts =
     pre ++ sa name args opts :: workloadGroup dirname name args opts
         :: workDir dirname name args opts :: post)
  ∧ before (Done (r_urn (sa name args opts)))
           (Start (r_urn (workDir dirname name args opts))) t.
Proof.
  intros Hrun. split.
  - by exists [component name], ([sshKey name; vm name args opts;
                                  keyOnDisk name args opts]
                                 ++ remote_steps dirname name args opts).
  - eapply run_start_after_deps; [done | |].
    + apply registered_find, in_VmService. set_solver.
    + unfold deps. simpl. set_solver.
Qed.
End Workflow.

(** ** The demo program *)

Lemma demo_registered :
  registered demo (VmService "/demo" "test" (test_args "/demo" 0) (test_opts "/demo" 0)).
Proof. repeat constructor. Qed.



(** In [run_vm_fails] the instance fails and the sidecar is never configured. *)
Lemma vm_failure_blocks_remote_steps_witness :
  run demo run_vm_fails
  ∧ Fail (GcpInstance, "test") ∈ run_vm_fails
  ∧ (Start (RemoteCommand, "test-configure") ∉ run_vm_fails)
  ∧ (Done (RemoteCommand, "test-configure") ∉ run_vm_fails)
  ∧ (Fail (RemoteCommand, "test-configure") ∉ run_vm_fails).
Proof.
  assert (run demo run_vm_fails) as Hrun by run_by_computation.
  assert (Fail (GcpInstance, "test") ∈ run_vm_fails) as Hfail by compute_done.
  split; [done|]. split; [done|].
  apply (vm_failure_blocks_remote_steps demo "/demo" "test"
           (test_args "/demo" 0) (test_opts "/demo" 0) demo_registered
           run_vm_fails
           (configure "/demo" "test" (test_args "/demo" 0) (test_opts "/demo" 0))
           Hrun Hfail).
  unfold remote_steps. apply elem_of_app. right. set_solver.
Defined.

(** In [run_in_order] the copy of [hosts] is complete when the configuration starts. *)
Lemma configure_after_copies_and_launch_witness :
  run demo run_in_order
  ∧ before (Done (RemoteCopyFile, "test-hosts"))
           (Start (RemoteCommand, "test-configure")) run_in_order.
Proof.
  assert (run demo run_in_order) as Hrun by run_by_computation.
  split; [done|].
  apply (configure_after_copies_and_launch demo "/demo" "test"
           (test_args "/demo" 0) (test_opts "/demo" 0) demo_registered
           run_in_order (RemoteCopyFile, "test-hosts") Hrun).
  simpl. set_solver.
Defined.

(** C3, as stated, fails: in [run_vm_first] the creation of the compute
    instance starts when the bundle has not been generated. *)
Lemma vm_starts_before_bundle_is_generated :
  ¬ (∀ t, run demo t →
       before (Done (TlsPrivateKey, "test")) (Start (GcpInstance, "test")) t
       ∧ before (Done (LocalCommand, "test")) (Start (GcpInstance, "test")) t).
Proof.
  intros H. destruct (H run_vm_first) as [_ Hb]; [run_by_computation|].
  specialize (Hb (sequential cluster_part ++ sequential [(TlsPrivateKey, "test")])
                 (Done (GcpInstance, "test")
                    :: sequential [(VmServiceComponent, "test"); (K8sServiceAccount, "test");
                                   (IstioWorkloadGroup, "test"); (LocalCommand, "test");
                                   (LocalCommand, "test-key")]
                    ++ sequential copies
                    ++ sequential [(RemoteCommand, "test-docker-setup");
                                   (RemoteCommand, "test-docker-run");
                                   (RemoteCommand, "test-configure")])
                 eq_refl).
  revert Hb. refute_by_computation.
Qed.

(** The orders that do hold in [run_vm_first]. *)
Lemma key_before_vm_and_both_before_copies_witness :
  run demo run_vm_first
  ∧ before (Done (TlsPrivateKey, "test")) (Start (GcpInstance, "test")) run_vm_first
  ∧ before (Done (TlsPrivateKey, "test")) (Start (RemoteCopyFile, "test-hosts")) run_vm_first
  ∧ before (Done (LocalCommand, "test")) (Start (RemoteCopyFile, "test-hosts")) run_vm_first
  ∧ before (Done (GcpInstance, "test")) (Start (RemoteCopyFile, "test-hosts")) run_vm_first.
Proof.
  assert (run demo run_vm_first) as Hrun by run_by_computation.
  split; [done|].
  apply (key_before_vm_and_both_before_copies demo "/demo" "test"
           (test_args "/demo" 0) (test_opts "/demo" 0) demo_registered
           run_vm_first
           (copyFile "/demo" "test" (test_args "/demo" 0) (test_opts "/demo" 0) "hosts")
           Hrun).
  unfold remoteFiles, files. simpl. set_solver.
Defined.

(** C5, as stated, fails: in [run_bundle_first] the bundle-generation
    command starts when the workload-group descriptor has not been
    created. *)
Lemma bundle_starts_before_workload_group :
  ¬ (∀ t, run demo t →
       before (Done (K8sServiceAccount, "test")) (Start (LocalCommand, "test")) t
       ∧ before (Done (IstioWorkloadGroup, "test")) (Start (LocalCommand, "test")) t).
Proof.
  intros H. destruct (H run_bundle_first) as [_ Hb]; [run_by_computation|].
  specialize (Hb (sequential cluster_part
                    ++ sequential [(VmServiceComponent, "test"); (K8sServiceAccount, "test")])
                 (Done (LocalCommand, "test")
                    :: sequential [(IstioWorkloadGroup, "test");
                                   (TlsPrivateKey, "test"); (GcpInstance, "test");
                                   (LocalCommand, "test-key")]
                    ++ sequential copies
                    ++ sequential [(RemoteCommand, "test-docker-setup");
                                   (RemoteCommand, "test-docker-run");
                                   (RemoteCommand, "test-configure")])
                 eq_refl).
  revert Hb. refute_by_computation.
Qed.

(** In [run_bundle_first] the service account is created before the bundle is generated. *)
Lemma bundle_after_service_account_witness :
  run demo run_bundle_first
  ∧ before (Done (K8sServiceAccount, "test")) (Start (LocalCommand, "test"))
           run_bundle_first.
Proof.
  assert (run demo run_bundle_first) as Hrun by run_by_computation.
  split; [done|].
  apply (bundle_after_service_account demo "/demo" "test"
           (test_args "/demo" 0) (test_opts "/demo" 0) demo_registered
           run_bundle_first Hrun).
Defined.

(** No registration of the program waits for the debug snapshot. *)
Lemma keyOnDisk_is_a_leaf dirname now d :
  d ∈ pulumiFunction dirname now →
  r_urn (keyOnDisk "test" (test_args dirname now) (test_opts dirname now)) ∉ deps d.
Proof.
  intros Hd.
  assert (forallb (λ d, bool_decide ((LocalCommand, "test-key") ∉ deps d))
            (pulumiFunction dirname now) = true) as Hall by (vm_compute; reflexivity).
  rewrite forallb_forall in Hall.
  eapply bool_decide_eq_true_1, Hall. by apply list_elem_of_In.
Qed.

Lemma main_up_failed stringify t :
  up_outcome t ≠ Succeeded →
  exit_code (main stringify (automation_of_run t) None) = 1%Z.
Proof.
  intros H. unfold main, automation_of_run, action. simpl.
  destruct (up_outcome t); [done | reflexivity].
Qed.

(** C4, as stated, fails: in [run_key_fails] the debug snapshot is the
    only step that fails, and the apply does not succeed. *)
Lemma debug_snapshot_failure_is_not_swallowed :
  ¬ (∀ t, run demo t →
       (∀ r, Fail r ∈ t → r = (LocalCommand, "test-key")) →
       up_outcome t = Succeeded).
Proof.
  intros H. specialize (H run_key_fails). discriminate H.
  - run_by_computation.
  - intros r Hr. vm_compute in Hr.
    repeat (apply elem_of_cons in Hr as [Hr | Hr]; [try discriminate Hr; by injection Hr|]).
    by apply elem_of_nil in Hr.
Qed.

(** What the driver does in that run: the update is rejected, no summary
    is printed and the process ends with code 1. *)
Example driver_when_debug_snapshot_fails :
  main sample_stringify (automation_of_run run_key_fails) None =
    {| calls := [CreateOrSelectStack "demo" "demo"; Cancel; Refresh; Up];
       exit_code := 1;
       reported := Some "update failed: test-key" |}
  ∧ complete (remote_steps "/demo" "test" (test_args "/demo" 0) (test_opts "/demo" 0))
      run_key_fails = true.
Proof. split; vm_compute; reflexivity. Qed.

(** C4, as the code has it: nothing waits for the debug snapshot, so a
    run in which it was created is still a run when it fails instead
    (the steps 6 to 9 proceed in the same way); but its failure is a
    failure of the apply, and the driver exits with a non-zero code. *)
Theorem debug_snapshot_blocks_nothing_but_fails_apply dirname now stringify t1 t2 :
  run (pulumiFunction dirname now)
    (t1 ++ Done (r_urn (keyOnDisk "test" (test_args dirname now) (test_opts dirname now)))
        :: t2) →
  run (pulumiFunction dirname now)
    (t1 ++ Fail (r_urn (keyOnDisk "test" (test_args dirname now) (test_opts dirname now)))
        :: t2)
  ∧ up_outcome
      (t1 ++ Fail (r_urn (keyOnDisk "test" (test_args dirname now) (test_opts dirname now)))
          :: t2) ≠ Succeeded
  ∧ exit_code
      (main stringify
         (automation_of_run
            (t1 ++ Fail (r_urn (keyOnDisk "test" (test_args dirname now)
                                  (test_opts dirname now))) :: t2))
         None) = 1%Z.
Proof.
  intros Hrun.
  assert (up_outcome
            (t1 ++ Fail (r_urn (keyOnDisk "test" (test_args dirname now)
                                  (test_opts dirname now))) :: t2) ≠ Succeeded) as Hout.
  { eapply up_outcome_failed. apply elem_of_app. right. apply elem_of_cons. by left. }
  split; [|split; [done | by apply main_up_failed]].
  eapply run_swap_failure; [|done]. apply keyOnDisk_is_a_leaf.
Qed.

(** [run_key_fails] is [run_in_order] with the failure of the debug snapshot in place of its creation. *)
Lemma debug_snapshot_blocks_nothing_but_fails_apply_witness :
  run demo run_key_fails
  ∧ up_outcome run_key_fails ≠ Succeeded
  ∧ exit_code (main sample_stringify (automation_of_run run_key_fails) None) = 1%Z.
Proof.
  apply (debug_snapshot_blocks_nothing_but_fails_apply "/demo" 0 sample_stringify
           (sequential cluster_part
              ++ sequential [(VmServiceComponent, "test"); (K8sServiceAccount, "test");
                             (IstioWorkloadGroup, "test"); (LocalCommand, "test");
                             (TlsPrivateKey, "test"); (GcpInstance, "test")]
              ++ [Start (LocalCommand, "test-key")])
           (sequential copies
              ++ sequential [(RemoteCommand, "test-docker-setup");
                             (RemoteCommand, "test-docker-run");
                             (RemoteCommand, "test-configure")])).
  run_by_computation.
Defined.

(** ** Replacement policy *)

(** C7, as stated, fails: neither the key pair nor the compute instance
    carries the flag. *)
Lemma key_pair_and_vm_do_not_carry_the_flag :
  ¬ (∀ d, d ∈ demo →
       r_urn d = (TlsPrivateKey, "test") ∨ r_urn d = (GcpInstance, "test") →
       carries_flag d = true).
Proof.
  intros H. specialize (H (sshKey "test")). discriminate H.
  - unfold demo, pulumiFunction, VmService. set_solver.
  - by left.
Qed.

(** C7, as the code has it: the flag is carried by the kubeconfig command,
    the service account, the bundle-generation command, the debug
    snapshot, the five copies and the launch of the workload process,
    and by nothing else.  The key pair is declared without options; the
    compute instance is given the options of the component as they are. *)
Theorem resources_carrying_the_flag dirname now :
  map r_urn (List.filter carries_flag (pulumiFunction dirname now)) =
    [(LocalCommand, "kc"); (K8sServiceAccount, "test"); (LocalCommand, "test");
     (LocalCommand, "test-key");
     (RemoteCopyFile, "test-cluster.env"); (RemoteCopyFile, "test-istio-token");
     (RemoteCopyFile, "test-mesh.yaml"); (RemoteCopyFile, "test-root-cert.pem");
     (RemoteCopyFile, "test-hosts"); (RemoteCommand, "test-docker-run")]
  ∧ (∀ name, deleteBeforeReplace (r_opts (sshKey name)) = None)
  ∧ (∀ name args opts,
       deleteBeforeReplace (r_opts (vm name args opts)) =
       deleteBeforeReplace (vs_opts opts))
  ∧ deleteBeforeReplace (vs_opts (test_opts dirname now)) = None.
Proof. repeat split. Qed.

(** ** The address of the workload *)


(** ** The clock *)

Lemma getMilliseconds_range now : (0 ≤ getMilliseconds now < 1000)%Z.
Proof. unfold getMilliseconds. apply Z.mod_pos_bound. lia. Qed.

(** C10: the trigger of the kubeconfig command is the millisecond
    component of the wall-clock time at evaluation.  Two evaluations
    give the command the same script and the same environment, and the
    same trigger exactly when their millisecond components agree; they
    declare the same resources exactly in that case, so two evaluations
    with the same external inputs can differ. *)
Theorem kubeconfig_trigger_follows_the_clock dirname :
  (∀ now,
     field "triggers" (r_props (localKc dirname now)) =
     Some (VList [VObj [("always", VNum (now mod 1000))]]))
  ∧ (∀ t1 t2,
       field "create" (r_props (localKc dirname t1)) =
       field "create" (r_props (localKc dirname t2))
       ∧ field "environment" (r_props (localKc dirname t1)) =
         field "environment" (r_props (localKc dirname t2))
       ∧ (field "triggers" (r_props (localKc dirname t1)) =
          field "triggers" (r_props (localKc dirname t2)) ↔
          (t1 mod 1000 = t2 mod 1000)%Z))
  ∧ (∀ t1 t2,
       pulumiFunction dirname t1 = pulumiFunction dirname t2 ↔
       (t1 mod 1000 = t2 mod 1000)%Z)
  ∧ pulumiFunction dirname 0 ≠ pulumiFunction dirname 1.
Proof.
  assert (∀ t1 t2,
            pulumiFunction dirname t1 = pulumiFunction dirname t2 ↔
            (t1 mod 1000 = t2 mod 1000)%Z) as Hiff.
  { intros t1 t2. split.
    - intros H.
      apply (f_equal (λ g, r_props <$> g !! 5%nat)) in H. simpl in H.
      unfold getMilliseconds in H. congruence.
    - intros H. change (t1 mod 1000)%Z with (getMilliseconds t1) in H.
      change (t2 mod 1000)%Z with (getMilliseconds t2) in H.
      cbv -[getMilliseconds String.append]. by rewrite H. }
  split; [done|]. split; [|split; [done | rewrite Hiff; done]].
  intros t1 t2. split; [done|]. split; [done|].
  change (field "triggers" (r_props (localKc dirname t1)))
    with (Some (VList [VObj [("always", VNum (t1 mod 1000))]])).
  change (field "triggers" (r_props (localKc dirname t2)))
    with (Some (VList [VObj [("always", VNum (t2 mod 1000))]])).
  split; [congruence | by intros ->].
Qed.

(** ** The command-line driver *)

(** C8: the command has the single option [--destroy], which takes no
    value.  Without it the driver selects or creates the stack, cancels,
    refreshes, reconciles and prints the summary of the update; with it
    the driver selects or creates the stack, cancels, tears down and
    prints the summary of the teardown.  When an operation fails the
    process ends with code 1 and reports the error of that operation.
    Teardown removes every resource before the resources it waits for. *)
Theorem driver_operations stringify :
  cmd_options cli =
    [{| flags := "--destroy"; description := "Tear down all the provisioned infra" |}]
  ∧ existsb takes_value (cmd_options cli) = false
  ∧ (∀ ch d,
       main stringify
         {| createOrSelectStack := Ok (); cancel := Ok (); refresh := Ok ();
            up := Ok ch; destroy := d |} None =
       {| calls := [CreateOrSelectStack "demo" "demo"; Cancel; Refresh; Up;
                    ConsoleLog ("update summary: " +:+ nl +:+ stringify ch)];
          exit_code := 0; reported := None |})
  ∧ (∀ r u ch,
       main stringify
         {| createOrSelectStack := Ok (); cancel := Ok (); refresh := r;
            up := u; destroy := Ok ch |} (Some true) =
       {| calls := [CreateOrSelectStack "demo" "demo"; Cancel; Destroy;
                    ConsoleLog ("destroy summary: " +:+ nl +:+ stringify ch)];
          exit_code := 0; reported := None |})
  ∧ (∀ e d,
       main stringify
         {| createOrSelectStack := Ok (); cancel := Ok (); refresh := Ok ();
            up := Err e; destroy := d |} None =
       {| calls := [CreateOrSelectStack "demo" "demo"; Cancel; Refresh; Up];
          exit_code := 1; reported := Some e |})
  ∧ (∀ e u d,
       main stringify
         {| createOrSelectStack := Ok (); cancel := Ok (); refresh := Err e;
            up := u; destroy := d |} None =
       {| calls := [CreateOrSelectStack "demo" "demo"; Cancel; Refresh];
          exit_code := 1; reported := Some e |})
  ∧ (∀ r u e,
       main stringify
         {| createOrSelectStack := Ok (); cancel := Ok (); refresh := r;
            up := u; destroy := Err e |} (Some true) =
       {| calls := [CreateOrSelectStack "demo" "demo"; Cancel; Destroy];
          exit_code := 1; reported := Some e |})
  ∧ (∀ e r u d o,
       main stringify
         {| createOrSelectStack := Ok (); cancel := Err e; refresh := r;
            up := u; destroy := d |} o =
       {| calls := [CreateOrSelectStack "demo" "demo"; Cancel];
          exit_code := 1; reported := Some e |})
  ∧ (∀ e c r u d o,
       main stringify
         {| createOrSelectStack := Err e; cancel := c; refresh := r;
            up := u; destroy := d |} o =
       {| calls := [CreateOrSelectStack "demo" "demo"];
          exit_code := 1; reported := Some e |})
  ∧ (∀ dirname now,
       dependents_first (pulumiFunction dirname now)
         (destroy_order (pulumiFunction dirname now)) = true).
Proof.
  repeat split.
Qed.

(** ** The working directory *)

Section Directory.
Variable F : gmap string (gmap string file).
Variable W : string.
Variable c : string.
Variable u : N.

Lemma write_file_dir e n text :
  write_file W n text {| fs := <[W := e]> F; cwd := c; umask := u |} =
  Some {| fs := <[W := <[n := {| content := text;
                                 mode := match e !! n with
                                         | Some f => mode f
                                         | None => creation_mode u
                                         end |}]> e]> F;
          cwd := c; umask := u |}.
Proof.
  unfold write_file, set_fs. simpl.
  by rewrite lookup_insert_eq, insert_insert_eq.
Qed.

Lemma redirect_dir e n text :
  redirect W n text {| fs := <[W := e]> F; cwd := c; umask := u |} =
  (0%Z, {| fs := <[W := <[n := {| content := text;
                                  mode := match e !! n with
                                          | Some f => mode f
                                          | None => creation_mode u
                                          end |}]> e]> F;
           cwd := c; umask := u |}).
Proof. unfold redirect. by rewrite write_file_dir. Qed.

Lemma chmod_dir e n m f :
  e !! n = Some f →
  chmod m W n {| fs := <[W := e]> F; cwd := c; umask := u |} =
  (0%Z, {| fs := <[W := <[n := {| content := content f; mode := m |}]> e]> F;
           cwd := c; umask := u |}).
Proof.
  intros He. unfold chmod, set_fs. simpl.
  by rewrite lookup_insert_eq, He, insert_insert_eq.
Qed.
End Directory.

Lemma redirect_no_dir d n text s :
  fs s !! d = None → redirect d n text s = (1%Z, s).
Proof. intros H. unfold redirect, write_file. by rewrite H. Qed.

Lemma chmod_no_dir m d n s : fs s !! d = None → chmod m d n s = (1%Z, s).
Proof. intros H. unfold chmod. by rewrite H. Qed.

Section WorkingDirectory.
Variable bundle : string → string → string → string.
Variable resolved : list urn → string → string.
Variables dirname name : string.
Variable args : VmServiceArgs.
Variable opts : VmServiceOpts.

(** On a disk without the working directory, the script of [workDir]
    creates it with the descriptor and the five bundle files. *)
Lemma workDir_create_fresh s :
  fs s !! WORK_DIR dirname name = None →
  ∃ e, workDir_create bundle resolved dirname name args s =
         (0%Z, {| fs := <[WORK_DIR dirname name := e]> (fs s);
                  cwd := WORK_DIR dirname name; umask := umask s |})
       ∧ dom e = list_to_set ("workloadgroup.yaml" :: files).
Proof.
  intros Hfresh. unfold workDir_create, seq_sh.
  change (resolve_env resolved (envs dirname name args) "WORK_DIR")
    with (WORK_DIR dirname name).
  set (W := WORK_DIR dirname name) in *.
  unfold mkdir_p. rewrite Hfresh. unfold set_fs. simpl.
  unfold cd. simpl. rewrite lookup_insert_eq. simpl.
  rewrite redirect_dir. simpl.
  unfold istioctl_configure. simpl. rewrite !lookup_insert_eq. simpl.
  rewrite lookup_insert_eq. unfold files. simpl.
  repeat (rewrite write_file_dir; simpl).
  eexists. split; [reflexivity|].
  rewrite !dom_insert_L, dom_empty_L. set_solver.
Qed.

(** In an existing working directory, the script of [keyOnDisk] adds
    [key], with mode [0600], and [hostname]. *)
Lemma keyOnDisk_create_dir F e c u :
  ∃ e', keyOnDisk_create resolved dirname name args opts
          {| fs := <[WORK_DIR dirname name := e]> F; cwd := c; umask := u |} =
        (0%Z, {| fs := <[WORK_DIR dirname name := e']> F; cwd := c; umask := u |})
      ∧ dom e' = {["key"; "hostname"]} ∪ dom e
      ∧ mode <$> e' !! "key" = Some 384%N.
Proof.
  unfold keyOnDisk_create, seq_sh. rewrite redirect_dir. simpl.
  erewrite chmod_dir; [|apply lookup_insert_eq]. simpl.
  rewrite redirect_dir. eexists. split; [reflexivity|]. split.
  - rewrite !dom_insert_L. set_solver.
  - rewrite lookup_insert_ne by done. by rewrite lookup_insert_eq.
Qed.

(** Without the working directory, the script of [keyOnDisk] fails. *)
Lemma keyOnDisk_create_no_dir s :
  fs s !! WORK_DIR dirname name = None →
  keyOnDisk_create resolved dirname name args opts s = (1%Z, s).
Proof.
  intros H. unfold keyOnDisk_create, seq_sh.
  rewrite (redirect_no_dir _ _ _ s H). simpl.
  rewrite (chmod_no_dir _ _ _ s H). simpl.
  by rewrite (redirect_no_dir _ _ _ s H).
Qed.

End WorkingDirectory.



(** ** Transitive dependencies *)

Section Upstream.
Variable g : list Resource.

Lemma run_prefix t1 t2 : run g (t1 ++ t2) → run g t1.
Proof.
  unfold run. rewrite exec_app. destruct (exec g init t1); [by eauto|].
  by intros [? ?].
Qed.

(** If [b] waits for [a] and [c] waits for [b], then [c] starts after [a]
    was created. *)
Lemma before_trans t a b c :
  run g t →
  before (Done a) (Start b) t → before (Done b) (Start c) t →
  before (Done a) (Start c) t.
Proof.
  intros Hrun Hab Hbc t1 t2 ->.
  assert (Done b ∈ t1) as Hb by (by eapply Hbc).
  assert (Start b ∈ t1) as Hsb.
  { eapply run_end_started; [by eapply run_prefix | by left]. }
  apply list_elem_of_split in Hsb as (u1 & u2 & ->).
  apply elem_of_app. left.
  apply (Hab u1 (u2 ++ Start c :: t2)). by rewrite <- app_assoc.
Qed.

(** A resource starts only after everything upstream of it has been
    created. *)
Lemma run_start_after_upstream n t r x :
  run g t → x ∈ upstream g n r → before (Done x) (Start r) t.
Proof.
  intros Hrun. revert r. induction n as [|n IH]; intros r; simpl.
  { by intros ?%elem_of_nil. }
  destruct (find_resource g r) as [d|] eqn:Hd; [|by intros ?%elem_of_nil].
  rewrite elem_of_app. intros [Hx | Hx].
  - by eapply run_start_after_deps.
  - apply list_elem_of_In, in_flat_map in Hx as (y & Hy & Hx).
    apply list_elem_of_In in Hy, Hx.
    eapply before_trans; [done | by apply IH |]. by eapply run_start_after_deps.
Qed.
End Upstream.

(** ** Applying the program in program order *)

Lemma in_order_fresh seen g d :
  in_order seen g = true → d ∈ g → r_urn d ∉ seen.
Proof.
  revert seen. induction g as [|d0 g IH]; intros seen; simpl.
  { by intros _ ?%elem_of_nil. }
  rewrite !andb_true_iff, bool_decide_eq_true. intros [[Hd0 _] Hrest].
  rewrite elem_of_cons. intros [-> | Hd]; [done|].
  intros Hin. apply (IH _ Hrest Hd). apply elem_of_cons. by right.
Qed.

Lemma in_order_find seen g d :
  in_order seen g = true → d ∈ g → find_resource g (r_urn d) = Some d.
Proof.
  revert seen. induction g as [|d0 g IH]; intros seen; simpl.
  { by intros _ ?%elem_of_nil. }
  rewrite !andb_true_iff. intros [_ Hrest]. rewrite elem_of_cons. intros [-> | Hd].
  - by rewrite decide_True.
  - rewrite decide_False; [by eapply IH|].
    intros Heq. apply (in_order_fresh _ _ _ Hrest Hd).
    rewrite <- Heq. apply elem_of_cons. by left.
Qed.

Lemma up_outcome_sequential l : up_outcome (sequential l) = Succeeded.
Proof. induction l; simpl; done. Qed.

(** Starting and creating, one after the other, registrations that are
    in order after what has been created so far. *)
Lemma exec_in_order g0 g seen s :
  (∀ x, x ∈ started s ↔ x ∈ seen) → (∀ x, x ∈ created s ↔ x ∈ seen) →
  failed s = [] →
  (∀ d, d ∈ g → find_resource g0 (r_urn d) = Some d) →
  in_order seen g = true →
  is_Some (exec g0 s (sequential (map r_urn g))).
Proof.
  revert seen s. induction g as [|d g IH]; intros seen s Hst Hcr Hf Hfind; simpl.
  { by eauto. }
  rewrite !andb_true_iff, bool_decide_eq_true. intros [[Hfresh Hdeps] Hrest].
  rewrite (Hfind d) by (apply elem_of_cons; by left).
  assert (bool_decide (r_urn d ∉ started s)
          && forallb (λ x, bool_decide (x ∈ created s)) (deps d) = true) as ->.
  { apply andb_true_iff. split.
    - apply bool_decide_eq_true. by rewrite Hst.
    - rewrite forallb_forall in Hdeps |- *. intros x Hx.
      apply bool_decide_eq_true, Hcr. by eapply bool_decide_eq_true_1, Hdeps. }
  assert (running {| started := r_urn d :: started s; created := created s;
                     failed := failed s |} (r_urn d) = true) as ->.
  { apply running_spec. simpl. rewrite Hf, Hcr.
    split; [apply elem_of_cons; by left|]. split; [done | by intros ?%elem_of_nil]. }
  apply (IH (r_urn d :: seen)); simpl; try done.
  - intros x. rewrite !elem_of_cons, Hst. done.
  - intros x. rewrite !elem_of_cons, Hcr. done.
  - intros d' Hd'. apply Hfind. apply elem_of_cons. by right.
Qed.

Lemma in_order_run g :
  in_order [] g = true →
  run g (sequential (map r_urn g))
  ∧ complete g (sequential (map r_urn g)) = true.
Proof.
  intros Hord.
  assert (run g (sequential (map r_urn g))) as Hrun.
  { apply (exec_in_order g g [] init); try done.
    intros d Hd. by eapply in_order_find. }
  split; [done|]. unfold complete. apply forallb_forall. intros d Hd.
  apply bool_decide_eq_true. apply list_elem_of_In in Hd.
  clear Hord Hrun. induction g as [|d0 g IH]; [by apply elem_of_nil in Hd|].
  simpl. apply elem_of_cons in Hd as [-> | Hd].
  - apply elem_of_cons. right. apply elem_of_cons. by left.
  - apply elem_of_cons. right. apply elem_of_cons. right. by apply IH.
Qed.

(** Every registration of the program has a name of its own and waits
    only for registrations made before it in the program; so applying
    the registrations one by one, in program order, is a run of the
    engine in which everything is created and nothing fails. *)
Theorem program_applies_in_program_order dirname now :
  in_order [] (pulumiFunction dirname now) = true
  ∧ run (pulumiFunction dirname now)
      (sequential (map r_urn (pulumiFunction dirname now)))
  ∧ complete (pulumiFunction dirname now)
      (sequential (map r_urn (pulumiFunction dirname now))) = true
  ∧ up_outcome (sequential (map r_urn (pulumiFunction dirname now))) = Succeeded.
Proof.
  assert (in_order [] (pulumiFunction dirname now) = true) as Hord
    by (vm_compute; reflexivity).
  split; [done|]. destruct (in_order_run _ Hord) as [Hrun Hc].
  split; [done|]. split; [done|]. apply up_outcome_sequential.
Qed.

(** In every run, the steps of the workload that talk to the cluster,
    the compute instance and everything after it start only after the
    cluster has been created and the kubeconfig file has been written. *)
Theorem workload_waits_for_cluster_access dirname now t r :
  run (pulumiFunction dirname now) t →
  r ∈ [(K8sServiceAccount, "test"); (IstioWorkloadGroup, "test");
       (LocalCommand, "test"); (GcpInstance, "test"); (LocalCommand, "test-key")]
      ++ copies
      ++ [(RemoteCommand, "test-docker-setup"); (RemoteCommand, "test-docker-run");
          (RemoteCommand, "test-configure")] →
  before (Done (GcpCluster, "cluster")) (Start r) t
  ∧ before (Done (LocalCommand, "kc")) (Start r) t.
Proof.
  intros Hrun Hr. simpl in Hr.
  split; apply (run_start_after_upstream (pulumiFunction dirname now) 10); try done;
    list_cases Hr; apply (bool_decide_eq_true_1 _); vm_compute; reflexivity.
Qed.

(** In [run_in_order] the sidecar is configured after the cluster was
    created and the kubeconfig file written. *)
Lemma workload_waits_for_cluster_access_witness :
  run demo run_in_order
  ∧ before (Done (GcpCluster, "cluster")) (Start (RemoteCommand, "test-configure"))
      run_in_order
  ∧ before (Done (LocalCommand, "kc")) (Start (RemoteCommand, "test-configure"))
      run_in_order.
Proof.
  assert (run demo run_in_order) as Hrun by run_by_computation.
  split; [done|].
  apply (workload_waits_for_cluster_access "/demo" 0 run_in_order
           (RemoteCommand, "test-configure") Hrun).
  simpl. set_solver.
Defined.

(** In every run, the debug snapshot and every remote step start only
    after the firewall rule, the subnet and the gateway chart have been
    created: they all use the address of the instance, which waits for
    these. *)
Theorem remote_steps_wait_for_network dirname now t r :
  run (pulumiFunction dirname now) t →
  r ∈ (LocalCommand, "test-key") :: copies
      ++ [(RemoteCommand, "test-docker-setup"); (RemoteCommand, "test-docker-run");
          (RemoteCommand, "test-configure")] →
  before (Done (GcpFirewall, "firewall")) (Start r) t
  ∧ before (Done (GcpSubnetwork, "subnet")) (Start r) t
  ∧ before (Done (HelmChart, "istio-eastwestgateway")) (Start r) t.
Proof.
  intros Hrun Hr. simpl in Hr.
  repeat split; apply (run_start_after_upstream (pulumiFunction dirname now) 10);
    try done; list_cases Hr; apply (bool_decide_eq_true_1 _); vm_compute; reflexivity.
Qed.

(** In [run_vm_first] the first copy starts after the firewall rule, the
    subnet and the gateway chart were created. *)
Lemma remote_steps_wait_for_network_witness :
  run demo run_vm_first
  ∧ before (Done (GcpFirewall, "firewall")) (Start (RemoteCopyFile, "test-cluster.env"))
      run_vm_first
  ∧ before (Done (GcpSubnetwork, "subnet")) (Start (RemoteCopyFile, "test-cluster.env"))
      run_vm_first
  ∧ before (Done (HelmChart, "istio-eastwestgateway"))
      (Start (RemoteCopyFile, "test-cluster.env")) run_vm_first.
Proof.
  assert (run demo run_vm_first) as Hrun by run_by_computation.
  split; [done|].
  apply (remote_steps_wait_for_network "/demo" 0 run_vm_first
           (RemoteCopyFile, "test-cluster.env") Hrun).
  simpl. set_solver.
Defined.

(** ** Failures upstream, and orders the program does not impose *)

Lemma failed_upstream_blocks g n t r x :
  run g t → x ∈ upstream g n r → Fail x ∈ t → Start r ∉ t.
Proof.
  intros Hrun Hx Hf Hs. apply (run_not_both g t x Hrun); [|done].
  eapply before_elem; [|done]. by eapply run_start_after_upstream.
Qed.

(** If the generation of the key pair fails, then in every run neither
    the compute instance, nor the debug snapshot, nor any remote step is
    ever started. *)
Theorem key_failure_blocks_instance_and_remote_steps dirname now t r :
  run (pulumiFunction dirname now) t →
  Fail (TlsPrivateKey, "test") ∈ t →
  r ∈ (GcpInstance, "test") :: (LocalCommand, "test-key") :: copies
      ++ [(RemoteCommand, "test-docker-setup"); (RemoteCommand, "test-docker-run");
          (RemoteCommand, "test-configure")] →
  Start r ∉ t.
Proof.
  intros Hrun Hf Hr. simpl in Hr.
  apply (failed_upstream_blocks (pulumiFunction dirname now) 10 t r
           (TlsPrivateKey, "test")); try done.
  list_cases Hr; apply (bool_decide_eq_true_1 _); vm_compute; reflexivity.
Qed.

(** A run in which the key pair cannot be generated: the instance is
    never started. *)
Lemma key_failure_blocks_instance_and_remote_steps_witness :
  run demo (sequential cluster_part
              ++ [Start (TlsPrivateKey, "test"); Fail (TlsPrivateKey, "test")])
  ∧ Start (GcpInstance, "test")
      ∉ sequential cluster_part
          ++ [Start (TlsPrivateKey, "test"); Fail (TlsPrivateKey, "test")].
Proof.
  assert (run demo (sequential cluster_part
                      ++ [Start (TlsPrivateKey, "test"); Fail (TlsPrivateKey, "test")]))
    as Hrun by run_by_computation.
  split; [done|].
  apply (key_failure_blocks_instance_and_remote_steps "/demo" 0 _
           (GcpInstance, "test") Hrun).
  - compute_done.
  - simpl. set_solver.
Defined.

(** If the creation of the service account or the generation of the
    bundle fails, then in every run no bundle file is copied and the
    sidecar is never configured. *)
Theorem bundle_failure_blocks_copies_and_sidecar dirname now t x r :
  run (pulumiFunction dirname now) t →
  x ∈ [(K8sServiceAccount, "test"); (LocalCommand, "test")] →
  Fail x ∈ t →
  r ∈ copies ++ [(RemoteCommand, "test-configure")] →
  Start r ∉ t.
Proof.
  intros Hrun Hx Hf Hr. simpl in Hr.
  apply (failed_upstream_blocks (pulumiFunction dirname now) 10 t r x); try done.
  list_cases Hx; list_cases Hr; apply (bool_decide_eq_true_1 _); vm_compute; reflexivity.
Qed.

(** A run in which the bundle cannot be generated: the sidecar is never
    configured. *)
Lemma bundle_failure_blocks_copies_and_sidecar_witness :
  run demo (sequential cluster_part
              ++ sequential [(K8sServiceAccount, "test")]
              ++ [Start (LocalCommand, "test"); Fail (LocalCommand, "test")])
  ∧ Start (RemoteCommand, "test-configure")
      ∉ sequential cluster_part
          ++ sequential [(K8sServiceAccount, "test")]
          ++ [Start (LocalCommand, "test"); Fail (LocalCommand, "test")].
Proof.
  assert (run demo (sequential cluster_part
                      ++ sequential [(K8sServiceAccount, "test")]
                      ++ [Start (LocalCommand, "test"); Fail (LocalCommand, "test")]))
    as Hrun by run_by_computation.
  split; [done|].
  apply (bundle_failure_blocks_copies_and_sidecar "/demo" 0 _
           (LocalCommand, "test") (RemoteCommand, "test-configure") Hrun).
  - set_solver.
  - compute_done.
  - simpl. set_solver.
Defined.

(** The sidecar is configured without waiting for the control-plane
    chart, for the gateway and the virtual service that expose the
    control plane, for the cross-network gateway or for the workload
    group: [run_sidecar_first] is a complete run in which all of these
    start after the configuration has been completed. *)
Theorem sidecar_does_not_wait_for_control_plane dirname now :
  run (pulumiFunction dirname now) run_sidecar_first
  ∧ complete (pulumiFunction dirname now) run_sidecar_first = true
  ∧ Forall (λ x, ¬ before (Done x) (Start (RemoteCommand, "test-configure"))
                     run_sidecar_first)
      [(HelmChart, "istio-istiod"); (IstioGateway, "istiod-gateway");
       (IstioVirtualService, "istiod-vs"); (IstioGateway, "cross-network-gateway");
       (IstioWorkloadGroup, "test")].
Proof.
  split; [run_by_computation|]. split; [vm_compute; reflexivity|].
  repeat constructor;
    intros Hb;
    specialize (Hb (take 46 run_sidecar_first) (drop 47 run_sidecar_first) eq_refl);
    revert Hb; refute_by_computation.
Qed.

(** The installation of the runtime and the launch of the workload
    process do not wait for the bundle: after the generation of the
    bundle has failed, the engine still accepts that they are carried
    out. *)
Theorem runtime_does_not_wait_for_bundle dirname now :
  run (pulumiFunction dirname now)
    (sequential cluster_part
       ++ sequential [(K8sServiceAccount, "test")]
       ++ [Start (LocalCommand, "test"); Fail (LocalCommand, "test")]
       ++ sequential [(TlsPrivateKey, "test"); (GcpInstance, "test");
                      (RemoteCommand, "test-docker-setup");
                      (RemoteCommand, "test-docker-run")]).
Proof. run_by_computation. Qed.



(** ** The local scripts on an arbitrary disk *)

Lemma mkdir_p_fresh d s :
  fs s !! d = None →
  mkdir_p d s = (0%Z, {| fs := <[d := ∅]> (fs s); cwd := cwd s; umask := umask s |}).
Proof. intros H. unfold mkdir_p. by rewrite H. Qed.

Lemma mkdir_p_dir F d e c u :
  mkdir_p d {| fs := <[d := e]> F; cwd := c; umask := u |} =
  (0%Z, {| fs := <[d := e]> F; cwd := c; umask := u |}).
Proof. unfold mkdir_p. simpl. by rewrite lookup_insert_eq. Qed.

Lemma rm_rf_insert F w e c u :
  rm_rf w {| fs := <[w := e]> F; cwd := c; umask := u |} =
  (0%Z, {| fs := filter (λ p, ¬ under w p.1) F; cwd := c; umask := u |}).
Proof.
  unfold rm_rf, set_fs. simpl. f_equal. f_equal.
  rewrite map_filter_insert_False by (simpl; intros H; apply H; by left).
  rewrite map_filter_delete. apply delete_id.
  apply map_lookup_filter_None. right. intros x _ H. apply H. by left.
Qed.

Lemma rm_f_dir F w e c u n :
  rm_f w n {| fs := <[w := e]> F; cwd := c; umask := u |} =
  (0%Z, {| fs := <[w := delete n e]> F; cwd := c; umask := u |}).
Proof.
  unfold rm_f, set_fs. simpl. by rewrite lookup_insert_eq, insert_insert_eq.
Qed.

Section ScriptsOnAnyDisk.
Variable bundle : string → string → string → string.
Variable resolved : list urn → string → string.
Variables dirname name : string.
Variable args : VmServiceArgs.
Variable opts : VmServiceOpts.

Lemma workDir_create_mkdir s :
  workDir_create bundle resolved dirname name args s =
  workDir_create bundle resolved dirname name args
    {| fs := <[WORK_DIR dirname name := default ∅ (fs s !! WORK_DIR dirname name)]> (fs s);
       cwd := cwd s; umask := umask s |}.
Proof.
  destruct (fs s !! WORK_DIR dirname name) as [e0|] eqn:He; cbn [default].
  - rewrite (insert_id _ _ _ He). clear He. destruct s. reflexivity.
  - unfold workDir_create, seq_sh.
    change (resolve_env resolved (envs dirname name args) "WORK_DIR")
      with (WORK_DIR dirname name).
    rewrite (mkdir_p_fresh _ _ He), mkdir_p_dir. done.
Qed.

(** What the [create] script of [workDir] does, on any disk. *)
Lemma workDir_create_effect s :
  ∃ e',
    workDir_create bundle resolved dirname name args s =
      (0%Z, {| fs := <[WORK_DIR dirname name := e']> (fs s);
               cwd := WORK_DIR dirname name; umask := umask s |})
    ∧ dom e' = dom (default ∅ (fs s !! WORK_DIR dirname name))
                 ∪ list_to_set ("workloadgroup.yaml" :: files)
    ∧ (∀ n, n ∉ "workloadgroup.yaml" :: files →
         e' !! n = default ∅ (fs s !! WORK_DIR dirname name) !! n)
    ∧ content <$> e' !! "workloadgroup.yaml" =
        Some (workloadgroup_yaml (resolve_env resolved (envs dirname name args)))
    ∧ (∀ f, f ∈ files →
         content <$> e' !! f =
         Some (bundle (workloadgroup_yaml (resolve_env resolved (envs dirname name args)))
                 (resolve_env resolved (envs dirname name args) "CLUSTER") f))
    ∧ (∀ n, n ∈ "workloadgroup.yaml" :: files →
         mode <$> e' !! n =
         Some (match default ∅ (fs s !! WORK_DIR dirname name) !! n with
               | Some f => mode f
               | None => creation_mode (umask s)
               end)).
Proof.
  rewrite workDir_create_mkdir.
  set (e0 := default ∅ (fs s !! WORK_DIR dirname name)).
  unfold workDir_create, seq_sh.
  change (resolve_env resolved (envs dirname name args) "WORK_DIR")
    with (WORK_DIR dirname name).
  set (W := WORK_DIR dirname name) in *.
  rewrite mkdir_p_dir.
  unfold cd. simpl. rewrite lookup_insert_eq. simpl.
  rewrite redirect_dir. simpl.
  unfold istioctl_configure. simpl. rewrite !lookup_insert_eq. simpl.
  rewrite lookup_insert_eq. unfold files. simpl.
  repeat (rewrite write_file_dir; simpl).
  eexists. split; [reflexivity|].
  split; [rewrite !dom_insert_L; set_solver|].
  split.
  { intros n Hn. rewrite !lookup_insert_ne; [done|..]; intros <-; apply Hn; set_solver. }
  split.
  { by rewrite !lookup_insert_ne, lookup_insert_eq by done. }
  split.
  { intros f Hf. list_cases Hf; simplify_map_eq; done. }
  intros n Hn. list_cases Hn; simplify_map_eq; done.
Qed.



(** What the [create] script of [keyOnDisk] does in an existing working
    directory. *)
Lemma keyOnDisk_create_effect s e :
  fs s !! WORK_DIR dirname name = Some e →
  ∃ e',
    keyOnDisk_create resolved dirname name args opts s =
      (0%Z, {| fs := <[WORK_DIR dirname name := e']> (fs s);
               cwd := cwd s; umask := umask s |})
    ∧ e' !! "key" =
        Some {| content := resolved [r_urn (sshKey name)] "privateKeyOpenssh" +:+ nl;
                mode := 384 |}
    ∧ content <$> e' !! "hostname" =
        Some (resolved [r_urn (vm name args opts)] "hostname" +:+ nl)
    ∧ (∀ n, n ≠ "key" → n ≠ "hostname" → e' !! n = e !! n).
Proof.
  intros He.
  replace (keyOnDisk_create resolved dirname name args opts s)
    with (keyOnDisk_create resolved dirname name args opts
            {| fs := <[WORK_DIR dirname name := e]> (fs s);
               cwd := cwd s; umask := umask s |})
    by (rewrite (insert_id _ _ _ He); by destruct s).
  unfold keyOnDisk_create, seq_sh. rewrite redirect_dir. simpl.
  erewrite chmod_dir; [|apply lookup_insert_eq]. simpl.
  rewrite redirect_dir. eexists. split; [reflexivity|].
  split; [by rewrite lookup_insert_ne, lookup_insert_eq by done|].
  split; [by rewrite lookup_insert_eq|].
  intros n H1 H2. by rewrite !lookup_insert_ne by done.
Qed.




End ScriptsOnAnyDisk.





(** ** The address of the workload, for every instance *)

(** The address is a value exactly when the instance has a first network
    interface and that interface either has no [accessConfigs] property
    (the address is then empty) or has a non-empty array of them (the
    address is then the NAT address of the first); in every other case,
    an instance without network interfaces included, evaluation throws. *)
Theorem hostname_value_iff nis h :
  hostname nis = Value h ↔
  ∃ n rest, nis = n :: rest
    ∧ ((accessConfigs n = None ∧ h = "")
       ∨ ∃ c cs, accessConfigs n = Some (c :: cs) ∧ h = natIp c).
Proof.
  split.
  - destruct nis as [|[[[|c cs]|]] rest]; simpl; try done.
    + intros [= <-]. exists {| accessConfigs := Some (c :: cs) |}, rest.
      split; [done|]. right. by exists c, cs.
    + intros [= <-]. exists {| accessConfigs := None |}, rest. split; [done|]. by left.
  - intros (n & rest & -> & [[Hn ->] | (c & cs & Hn & ->)]);
      destruct n as [a]; simpl in Hn; subst a; reflexivity.
Qed.

(** ** The driver, whatever the engine answers *)

(** Whatever the operations of the engine answer: without [--destroy]
    the calls made are an initial part of select-or-create, cancel,
    refresh, update, print, and with it an initial part of
    select-or-create, cancel, destroy, print; either the process ends
    with code 0, reports nothing and the last call printed the summary,
    or it ends with code 1, reports an error and printed nothing. *)
Theorem driver_call_discipline stringify w o :
  (∃ text,
     calls (main stringify w o) `prefix_of`
       (if default false o
        then [CreateOrSelectStack "demo" "demo"; Cancel; Destroy; ConsoleLog text]
        else [CreateOrSelectStack "demo" "demo"; Cancel; Refresh; Up; ConsoleLog text]))
  ∧ ((exit_code (main stringify w o) = 0%Z
      ∧ reported (main stringify w o) = None
      ∧ ∃ text, last (calls (main stringify w o)) = Some (ConsoleLog text))
     ∨ (exit_code (main stringify w o) = 1%Z
        ∧ (∃ e, reported (main stringify w o) = Some e)
        ∧ ∀ text, ConsoleLog text ∉ calls (main stringify w o))).
Proof.
  destruct w as [[[]|e1] [[]|e2] [[]|e3] [ch|e4] [ch'|e5]], o as [[|]|];
    (split;
     [ first [ exists ""; cbv -[String.append]; by eexists
             | eexists; cbv -[String.append]; by eexists ]
     | first [ left; split; [reflexivity|]; split; [reflexivity|]; by eexists
             | right; split; [reflexivity|]; split; [by eexists|];
               intros text Ht; cbv -[String.append] in Ht;
               repeat (apply elem_of_cons in Ht as [Ht | Ht]; [done|]);
               by apply elem_of_nil in Ht ] ]).
Qed.

(** ** Consistency of the declarations *)

(** The gateways and the gateway chart fit together: every port a
    [Gateway] listens on is a port of the service of the east-west
    gateway chart, each port of that service targets the same port
    number, the selector of each [Gateway] is among the labels the chart
    gives its pods, and the virtual service routes exactly the ports of
    the gateway it is bound to, on which it is pending. *)
Theorem gateways_fit_the_gateway_chart dirname now :
  gateway_ports (istiodgw dirname now) ⊆ service_ports (ewgw dirname now)
  ∧ gateway_ports (cross_network_gateway dirname now) ⊆ service_ports (ewgw dirname now)
  ∧ service_target_ports (ewgw dirname now) = service_ports (ewgw dirname now)
  ∧ selector (istiodgw dirname now) ⊆ labels (ewgw dirname now)
  ∧ selector (cross_network_gateway dirname now) ⊆ labels (ewgw dirname now)
  ∧ route_match_ports (istiod_vs dirname now) = gateway_ports (istiodgw dirname now)
  ∧ elems (path ["spec"; "gateways"] (VObj (r_props (istiod_vs dirname now)))) =
      [VOut [r_urn (istiodgw dirname now)] "m?.name || ''"].
Proof.
  repeat split; try reflexivity; intros x Hx; vm_compute in Hx |- *; set_solver.
Qed.

(** ** Names of the resources of a workload *)

Lemma append_nil_r s : s +:+ "" = s.
Proof.
  induction s as [|c s IH]; [done|].
  change (String c (s +:+ "") = String c s). by rewrite IH.
Qed.

Lemma append_suffix_ne name suffix : suffix ≠ "" → name +:+ suffix ≠ name.
Proof.
  intros Hne Heq. apply Hne. apply (inj (String.append name)).
  by rewrite append_nil_r.
Qed.

Lemma append_suffixes_ne name s1 s2 : s1 ≠ s2 → name +:+ s1 ≠ name +:+ s2.
Proof. intros Hne Heq. apply Hne. by apply (inj (String.append name)). Qed.


(** Two workloads have the same working directory only when they have
    the same name. *)
Theorem working_directories_are_distinct dirname n1 n2 :
  WORK_DIR dirname n1 = WORK_DIR dirname n2 ↔ n1 = n2.
Proof.
  split; [|by intros ->]. unfold WORK_DIR. intros H.
  apply (inj (String.append dirname)) in H.
  by apply (inj (String.append "/workloads/")) in H.
Qed.
